(** * Time MCP server ([src/index.ts]): a shallow embedding and its properties

    The server exposes one tool, [getCurrentTime], through two request
    handlers.  The embedding follows the TypeScript source:

    - JavaScript values, truthiness, [ToString], and completions
      (normal return or a thrown value) are in [JS];
    - the parts of the host the source calls are in [ECMADate]
      ([Date.prototype.toISOString], after ECMA-262) and in [Intl]
      ([Intl.DateTimeFormat] and [formatToParts], after ECMA-402, over a
      time zone database that is a parameter);
    - the source itself is in [TimeServer]: [GET_CURRENT_TIME_TOOL],
      [getCurrentTime], and the two handlers registered in [main].

    The clock read by [new Date()] is an explicit argument [now], the time
    value in milliseconds since the epoch. *)

From Stdlib Require Import ZArith Lia Bool Ascii String List.
From stdpp Require Import base option gmap strings list.
Import ListNotations.

(* ===================================================================== *)
(** * Definitions *)
(* ===================================================================== *)

(** ** JavaScript values and completions *)

Module JS.

(** The values a handler can find in [request.params.arguments]: what
    [JSON.parse] produces, and [undefined] for a missing property.  A
    number is kept as the two observations the program makes of it, its
    truthiness and its [ToString] rendering. *)
#[warnings="-register-all"]
Inductive Value : Type :=
| Undefined
| Null
| Boolean (b : bool)
| Number (truthy : bool) (text : string)
| Str (s : string)
| Array (elems : list Value)
| Object (props : gmap string Value).

(** [!v] is [negb (ToBoolean v)]. *)
Definition ToBoolean (v : Value) : bool :=
  match v with
  | Undefined | Null => false
  | Boolean b => b
  | Number truthy _ => truthy
  | Str s => negb (String.eqb s "")
  | Array _ | Object _ => true
  end.

(** A thrown value: an [Error] instance (of any subclass, [name] tells
    which) or anything else. *)
Inductive Thrown : Type :=
| ErrorObject (name message : string)
| NonError (v : Value).

Definition instanceofError (e : Thrown) : bool :=
  match e with ErrorObject _ _ => true | NonError _ => false end.

(** [new Error(message)], [new RangeError(message)], [new TypeError(message)]. *)
Definition Error (message : string) : Thrown := ErrorObject "Error" message.
Definition RangeError (message : string) : Thrown := ErrorObject "RangeError" message.
Definition TypeError (message : string) : Thrown := ErrorObject "TypeError" message.

Inductive Completion (A : Type) : Type :=
| Normal (a : A)
| Throw (e : Thrown).
Arguments Normal {A} a.
Arguments Throw {A} e.

Definition bind {A B} (c : Completion A) (k : A -> Completion B) : Completion B :=
  match c with
  | Normal a => k a
  | Throw e => Throw e
  end.

(** Evaluate in order; the first throw wins. *)
Fixpoint sequence {A} (l : list (Completion A)) : Completion (list A) :=
  match l with
  | [] => Normal []
  | c :: rest => bind c (fun a => bind (sequence rest) (fun r => Normal (a :: r)))
  end.

Fixpoint join (sep : string) (l : list string) : string :=
  match l with
  | [] => ""
  | [s] => s
  | s :: rest => s +:+ sep +:+ join sep rest
  end.

(** The message of the [TypeError] of OrdinaryToPrimitive, in the
    wording of V8 (the source runs on Node). *)
Definition cannot_convert : string := "Cannot convert object to primitive value".

(** [ToString], as used by template literals and by the [timeZone]
    option.  An array is joined with commas, [undefined] and [null]
    elements giving the empty string.  An object parsed from JSON prints
    as [[object Object]] through the inherited [toString], unless it has
    a property [toString] of its own: that property is not callable, the
    inherited [valueOf] returns the object itself, and the conversion
    throws a [TypeError]. *)
Fixpoint ToString (v : Value) : Completion string :=
  match v with
  | Undefined => Normal "undefined"
  | Null => Normal "null"
  | Boolean true => Normal "true"
  | Boolean false => Normal "false"
  | Number _ text => Normal text
  | Str s => Normal s
  | Array elems =>
      bind
        (sequence (map (fun e => match e with
                                 | Undefined | Null => Normal ""
                                 | _ => ToString e
                                 end) elems))
        (fun strings => Normal (join "," strings))
  | Object props =>
      match props !! "toString" with
      | None => Normal "[object Object]"
      | Some _ => Throw (TypeError cannot_convert)
      end
  end.

(** [try { body } catch (error) { handler }] *)
Definition try_catch {A} (body : Completion A) (handler : Thrown -> Completion A)
  : Completion A :=
  match body with
  | Normal a => Normal a
  | Throw e => handler e
  end.

(** [obj?.key] on an optional plain object, for a [key] that
    [Object.prototype] does not define: [undefined] when the object or the
    property is missing. *)
Definition optional_get (obj : option (gmap string Value)) (key : string) : Value :=
  match obj with
  | None => Undefined
  | Some props => default Undefined (props !! key)
  end.

(** [Object.fromEntries]: later entries overwrite earlier ones. *)
Definition fromEntries (entries : list (string * string)) : gmap string string :=
  fold_left (fun m kv => <[kv.1 := kv.2]> m) entries ∅.

(** [${obj.key}] for an object of strings: a missing property prints
    as [undefined]. *)
Definition interpolate (obj : gmap string string) (key : string) : string :=
  default "undefined" (obj !! key).

End JS.

(** [x ← c; k] sequences completions: a throw in [c] skips [k]. *)
#[global] Instance completion_ret : MRet JS.Completion := @JS.Normal.
#[global] Instance completion_bind : MBind JS.Completion :=
  fun A B k c => JS.bind c k.

(** ** Decimal rendering and timestamp patterns *)

Module Text.

Definition digit_char (d : Z) : ascii := ascii_of_nat (48 + Z.to_nat d).

Definition is_digit (c : ascii) : bool :=
  (48 <=? nat_of_ascii c)%nat && (nat_of_ascii c <=? 57)%nat.

Fixpoint all_digits (s : string) : bool :=
  match s with
  | EmptyString => true
  | String c s' => is_digit c && all_digits s'
  end.

(** Most significant digit first; [fuel] bounds the number of digits. *)
Fixpoint decimal_digits (fuel : nat) (n : Z) : string :=
  match fuel with
  | O => ""
  | S fuel' =>
      (if (n <? 10)%Z then "" else decimal_digits fuel' (n / 10)%Z)
      +:+ String (digit_char (n mod 10)%Z) ""
  end.

(** The decimal numeral of a natural number [n]; a number has no more
    decimal than binary digits. *)
Definition decimal (n : Z) : string :=
  decimal_digits (S (Z.to_nat (Z.log2 n))) n.

Fixpoint replicate_char (k : nat) (c : ascii) : string :=
  match k with
  | O => ""
  | S k' => String c (replicate_char k' c)
  end.

(** [String.prototype.padStart] with a one-character filler. *)
Definition padStart (s : string) (width : nat) (c : ascii) : string :=
  replicate_char (width - String.length s) c +:+ s.

(** ECMA-262 ToZeroPaddedDecimalString(n, minLength), [n] not negative. *)
Definition ToZeroPaddedDecimalString (n : Z) (minLength : nat) : string :=
  padStart (decimal n) minLength "0".

(** A timestamp pattern such as [YYYY-MM-DDTHH:mm:ss.mmmZ]: the field
    letters [Y M D H m s] stand for one decimal digit each, every other
    character (here [-], [T], [:], [.], [Z]) for itself. *)
Definition is_field_letter (c : ascii) : bool :=
  existsb (Ascii.eqb c) ["Y"; "M"; "D"; "H"; "m"; "s"]%char.

Fixpoint matches (pattern s : string) : bool :=
  match pattern, s with
  | EmptyString, EmptyString => true
  | String p pattern', String c s' =>
      (if is_field_letter p then is_digit c else Ascii.eqb p c)
      && matches pattern' s'
  | _, _ => false
  end.

Definition UTC_PATTERN : string := "YYYY-MM-DDTHH:mm:ss.mmmZ".
Definition ZONED_PATTERN : string := "YYYY-MM-DDTHH:mm:ss.mmm".

(** What follows the year in both patterns. *)
Definition AFTER_YEAR_PATTERN : string := "-MM-DDTHH:mm:ss.mmm".

(** [s] begins with [p]; [s] contains [sub]. *)
Definition starts_with (p s : string) : bool := String.prefix p s.

Fixpoint contains (sub s : string) : bool :=
  String.prefix sub s ||
  match s with
  | EmptyString => false
  | String _ s' => contains sub s'
  end.

Fixpoint last_char (s : string) : option ascii :=
  match s with
  | EmptyString => None
  | String c EmptyString => Some c
  | String _ s' => last_char s'
  end.

End Text.

(** ** The host's [Date]: ECMA-262, section "Time Values and Time Range" *)

Module ECMADate.
Local Open Scope Z_scope.

Definition msPerSecond : Z := 1000.
Definition msPerMinute : Z := 60000.
Definition msPerHour : Z := 3600000.
Definition msPerDay : Z := 86400000.

Definition Day (t : Z) : Z := t / msPerDay.
Definition TimeWithinDay (t : Z) : Z := t mod msPerDay.

Definition DaysInYear (y : Z) : Z :=
  if negb (y mod 4 =? 0) then 365
  else if negb (y mod 100 =? 0) then 366
  else if negb (y mod 400 =? 0) then 365
  else 366.

Definition DayFromYear (y : Z) : Z :=
  365 * (y - 1970) + (y - 1969) / 4 - (y - 1901) / 100 + (y - 1601) / 400.

Definition TimeFromYear (y : Z) : Z := msPerDay * DayFromYear y.

(** ECMA-262 defines YearFromTime(t) as the largest [y] with
    [TimeFromYear y <= t].  It is computed from an estimate that is off
    by at most one year; [YearFromTime_largest] below shows that the
    result is the year of the definition. *)
Definition YearFromTime (t : Z) : Z :=
  let d := Day t in
  let y := 1970 + (400 * d) / 146097 in
  if d <? DayFromYear y then y - 1
  else if DayFromYear (y + 1) <=? d then y + 1
  else y.

Definition InLeapYear (t : Z) : Z :=
  if DaysInYear (YearFromTime t) =? 366 then 1 else 0.

Definition DayWithinYear (t : Z) : Z := Day t - DayFromYear (YearFromTime t).

(** Month number, January = 0. *)
Definition MonthFromTime (t : Z) : Z :=
  let d := DayWithinYear t in
  let leap := InLeapYear t in
  if d <? 31 then 0
  else if d <? 59 + leap then 1
  else if d <? 90 + leap then 2
  else if d <? 120 + leap then 3
  else if d <? 151 + leap then 4
  else if d <? 181 + leap then 5
  else if d <? 212 + leap then 6
  else if d <? 243 + leap then 7
  else if d <? 273 + leap then 8
  else if d <? 304 + leap then 9
  else if d <? 334 + leap then 10
  else 11.

(** Day of the month, from 1. *)
Definition DateFromTime (t : Z) : Z :=
  let d := DayWithinYear t in
  let leap := InLeapYear t in
  match MonthFromTime t with
  | 0 => d + 1
  | 1 => d - 30
  | 2 => d - 58 - leap
  | 3 => d - 89 - leap
  | 4 => d - 119 - leap
  | 5 => d - 150 - leap
  | 6 => d - 180 - leap
  | 7 => d - 211 - leap
  | 8 => d - 242 - leap
  | 9 => d - 272 - leap
  | 10 => d - 303 - leap
  | _ => d - 333 - leap
  end.

Definition HourFromTime (t : Z) : Z := (t / msPerHour) mod 24.
Definition MinFromTime (t : Z) : Z := (t / msPerMinute) mod 60.
Definition SecFromTime (t : Z) : Z := (t / msPerSecond) mod 60.
Definition msFromTime (t : Z) : Z := t mod msPerSecond.

Import Text.

(** The year of the Date Time String Format: four digits for years 0 to
    9999, otherwise a sign and six digits (expanded years). *)
Definition year_string (y : Z) : string :=
  if (0 <=? y) && (y <=? 9999) then ToZeroPaddedDecimalString y 4
  else (if y <? 0 then "-" else "+") +:+ ToZeroPaddedDecimalString (Z.abs y) 6.

(** [Date.prototype.toISOString] on a valid time value [tv] (what
    [new Date()] holds): [YYYY-MM-DDTHH:mm:ss.sssZ] in UTC. *)
Definition toISOString (tv : Z) : string :=
  year_string (YearFromTime tv)
  +:+ "-" +:+ ToZeroPaddedDecimalString (MonthFromTime tv + 1) 2
  +:+ "-" +:+ ToZeroPaddedDecimalString (DateFromTime tv) 2
  +:+ "T" +:+ ToZeroPaddedDecimalString (HourFromTime tv) 2
  +:+ ":" +:+ ToZeroPaddedDecimalString (MinFromTime tv) 2
  +:+ ":" +:+ ToZeroPaddedDecimalString (SecFromTime tv) 2
  +:+ "." +:+ ToZeroPaddedDecimalString (msFromTime tv) 3
  +:+ "Z".

End ECMADate.

(** ** The host's [Intl.DateTimeFormat]: ECMA-402 over a time zone database *)

Module Intl.
Import Text.

(** A zone of the IANA database: its offset from UTC in milliseconds at
    an instant (daylight saving makes it depend on the instant) and its
    short name there. *)
Record TimeZone : Type := {
  offset : Z -> Z;
  shortName : Z -> string;
}.

(** The database the host resolves identifiers against.  [None] is an
    identifier the host does not recognize; the empty string never names
    a zone. *)
Record TimeZoneDatabase : Type := {
  lookup : string -> option TimeZone;
  lookup_empty : lookup "" = None;
}.

(** The options object of the source, one field per property it sets. *)
Record Options : Type := {
  timeZone : JS.Value;
  year : string;
  month : string;
  day : string;
  hour : string;
  minute : string;
  second : string;
  fractionalSecondDigits : Z;
  hour12 : bool;
  timeZoneName : string;
}.

Record DateTimeFormat : Type := {
  resolvedZone : TimeZone;
  resolvedOptions : Options;
}.

Record Part : Type := {
  type : string;
  value : string;
}.

Definition valid_field_style (style : string) : bool :=
  String.eqb style "numeric" || String.eqb style "2-digit".

Definition valid_options (o : Options) : bool :=
  valid_field_style (year o) && valid_field_style (month o)
  && valid_field_style (day o) && valid_field_style (hour o)
  && valid_field_style (minute o) && valid_field_style (second o)
  && (1 <=? fractionalSecondDigits o)%Z && (fractionalSecondDigits o <=? 3)%Z
  && existsb (String.eqb (timeZoneName o)) ["short"; "long"].

(** [new Intl.DateTimeFormat(locale, options)]: the [timeZone] option is
    converted with [ToString], which may throw, and resolved; an
    identifier the database does not know, or an option value out of its
    range, throws a [RangeError]. *)
Definition new_DateTimeFormat (db : TimeZoneDatabase) (locale : string)
    (options : Options) : JS.Completion DateTimeFormat :=
  JS.bind (JS.ToString (timeZone options)) (fun id =>
    match lookup db id with
    | None => JS.Throw (JS.RangeError ("Invalid time zone specified: " +:+ id))
    | Some zone =>
        if valid_options options
        then JS.Normal {| resolvedZone := zone; resolvedOptions := options |}
        else JS.Throw (JS.RangeError "Value out of range for Intl.DateTimeFormat options")
    end).

(** The instant as wall-clock time of the zone. *)
Definition localTime (zone : TimeZone) (t : Z) : Z := (t + offset zone t)%Z.

(** A field in the ["2-digit"] or ["numeric"] style. *)
Definition render_field (style : string) (n : Z) : string :=
  if String.eqb style "2-digit" then ToZeroPaddedDecimalString (n mod 100)%Z 2
  else decimal n.

(** The Gregorian year of era: year [y <= 0] is year [1 - y] of the era
    before. *)
Definition yearOfEra (y : Z) : Z := if (y <=? 0)%Z then (1 - y)%Z else y.

(** [formatter.formatToParts(date)] for the [en-US] locale and the
    fields the source asks for (date, time on the 24-hour cycle that
    [hour12: false] selects, fractional seconds, zone name), in the
    order of the locale's pattern [MM/dd/y, HH:mm:ss.SSS z]; each field
    is rendered in the style its option names. *)
Definition formatToParts (f : DateTimeFormat) (t : Z) : list Part :=
  let o := resolvedOptions f in
  let lt := localTime (resolvedZone f) t in
  [ {| type := "month"; value := render_field (month o) (ECMADate.MonthFromTime lt + 1)%Z |};
    {| type := "literal"; value := "/" |};
    {| type := "day"; value := render_field (day o) (ECMADate.DateFromTime lt) |};
    {| type := "literal"; value := "/" |};
    {| type := "year"; value := render_field (year o) (yearOfEra (ECMADate.YearFromTime lt)) |};
    {| type := "literal"; value := ", " |};
    {| type := "hour"; value := render_field (hour o) (ECMADate.HourFromTime lt) |};
    {| type := "literal"; value := ":" |};
    {| type := "minute"; value := render_field (minute o) (ECMADate.MinFromTime lt) |};
    {| type := "literal"; value := ":" |};
    {| type := "second"; value := render_field (second o) (ECMADate.SecFromTime lt) |};
    {| type := "literal"; value := "." |};
    {| type := "fractionalSecond";
       value := ToZeroPaddedDecimalString
                  (ECMADate.msFromTime lt / 10 ^ (3 - fractionalSecondDigits o))%Z
                  (Z.to_nat (fractionalSecondDigits o)) |};
    {| type := "literal"; value := " " |};
    {| type := "timeZoneName"; value := shortName (resolvedZone f) t |} ].

End Intl.

(** ** The source: [src/index.ts] *)

Module PropertySchema.
Record t : Type := { type : string; description : string }.
End PropertySchema.

Module InputSchema.
(** [required] is the JSON Schema list of mandatory properties; the
    source leaves it out. *)
Record t : Type := {
  type : string;
  properties : gmap string PropertySchema.t;
  required : option (list string);
}.
End InputSchema.

Module Tool.
Record t : Type := {
  name : string;
  description : string;
  inputSchema : InputSchema.t;
}.
End Tool.

Module TextContent.
Record t : Type := { type : string; text : string }.
End TextContent.

Module CallToolResult.
(** [isError] is an optional property: [None] when the returned object
    does not have it. *)
Record t : Type := {
  content : list TextContent.t;
  isError : option bool;
}.

(** How the protocol reads the flag: a missing [isError] is [false]. *)
Definition failed (r : t) : bool := default false (isError r).
End CallToolResult.

Module ListToolsResult.
Record t : Type := { tools : list Tool.t }.
End ListToolsResult.

Module CallToolRequest.
(** [request.params]: [arguments] is optional. *)
Record t : Type := {
  name : string;
  arguments : option (gmap string JS.Value);
}.

(** A call of the tool [getCurrentTime] with the given arguments. *)
Definition getCurrentTime (args : option (gmap string JS.Value)) : t :=
  {| name := "getCurrentTime"; arguments := args |}.
End CallToolRequest.

Module TimeServer.
Import JS.

Definition GET_CURRENT_TIME_TOOL : Tool.t := {|
  Tool.name := "getCurrentTime";
  Tool.description :=
    "Returns the current date and time in ISO 8601 format. Optionally accepts a timezone parameter to return the time in a specific timezone (e.g., 'America/New_York', 'Europe/London', 'Asia/Tokyo').";
  Tool.inputSchema := {|
    InputSchema.type := "object";
    InputSchema.properties :=
      {[ "timezone" := {|
           PropertySchema.type := "string";
           PropertySchema.description :=
             "Optional IANA timezone identifier (e.g., 'America/New_York', 'Europe/London', 'UTC'). If not provided, returns time in UTC.";
         |} ]};
    InputSchema.required := None;
  |};
|}.

(** The template literal of the error [getCurrentTime] throws, around
    the string [shown] that [${timezone}] evaluates to. *)
Definition invalid_timezone_message (shown : string) : string :=
  "Invalid timezone: " +:+ shown
  +:+ ". Please provide a valid IANA timezone identifier (e.g., 'America/New_York', 'Europe/London', 'UTC').".

Section Server.
Context (db : Intl.TimeZoneDatabase).

(** [function getCurrentTime(timezone?: string): string], called when
    the clock reads [now].  The parameter type is erased at run time:
    the handler passes whatever value the request holds. *)
Definition getCurrentTime (now : Z) (timezone : Value) : Completion string :=
  if negb (ToBoolean timezone) then
    Normal (ECMADate.toISOString now)
  else
    try_catch
      (formatter ← Intl.new_DateTimeFormat db "en-US" {|
         Intl.timeZone := timezone;
         Intl.year := "numeric";
         Intl.month := "2-digit";
         Intl.day := "2-digit";
         Intl.hour := "2-digit";
         Intl.minute := "2-digit";
         Intl.second := "2-digit";
         Intl.fractionalSecondDigits := 3;
         Intl.hour12 := false;
         Intl.timeZoneName := "short";
       |};
       let parts := Intl.formatToParts formatter now in
       let partsMap :=
         fromEntries (map (fun part => (Intl.type part, Intl.value part)) parts) in
       let isoString :=
         interpolate partsMap "year" +:+ "-" +:+ interpolate partsMap "month"
         +:+ "-" +:+ interpolate partsMap "day" +:+ "T" +:+ interpolate partsMap "hour"
         +:+ ":" +:+ interpolate partsMap "minute" +:+ ":" +:+ interpolate partsMap "second"
         +:+ "." +:+ interpolate partsMap "fractionalSecond" in
       Normal isoString)
      (fun error =>
         shown ← ToString timezone;
         Throw (Error (invalid_timezone_message shown))).

(** The handler registered for [ListToolsRequestSchema]. *)
Definition ListToolsHandler : Completion ListToolsResult.t :=
  Normal {| ListToolsResult.tools := [GET_CURRENT_TIME_TOOL] |}.

(** The handler registered for [CallToolRequestSchema], run when the
    clock reads [now]. *)
Definition CallToolHandler (now : Z) (request : CallToolRequest.t)
  : Completion CallToolResult.t :=
  let name := CallToolRequest.name request in
  let args := CallToolRequest.arguments request in
  if negb (String.eqb name "getCurrentTime") then
    Throw (Error ("Unknown tool: " +:+ name))
  else
    try_catch
      (let timezone := optional_get args "timezone" in
       currentTime ← getCurrentTime now timezone;
       Normal {|
         CallToolResult.content :=
           [ {| TextContent.type := "text"; TextContent.text := currentTime |} ];
         CallToolResult.isError := None;
       |})
      (fun error =>
         let errorMessage :=
           match error with
           | ErrorObject _ message => message
           | NonError _ => "Unknown error occurred"
           end in
         Normal {|
           CallToolResult.content :=
             [ {| TextContent.type := "text";
                  TextContent.text := "Error: " +:+ errorMessage |} ];
           CallToolResult.isError := Some true;
         |}).

(** The requests the server answers, and what a request yields. *)
Inductive Request : Type :=
| ListTools
| CallTool (request : CallToolRequest.t).

Inductive Reply : Type :=
| ToolList (r : ListToolsResult.t)
| ToolResult (r : CallToolResult.t).

Definition dispatch (now : Z) (r : Request) : Completion Reply :=
  match r with
  | ListTools => result ← ListToolsHandler; Normal (ToolList result)
  | CallTool request => result ← CallToolHandler now request; Normal (ToolResult result)
  end.

(** The server over its life: the requests arrive one after the other,
    each served at its own clock reading. *)
Fixpoint serve (events : list (Z * Request)) : list (Completion Reply) :=
  match events with
  | [] => []
  | (now, r) :: rest => dispatch now r :: serve rest
  end.

End Server.
End TimeServer.

(** ** The renderings the specification names

    The specification describes the two outputs of the time formatter by
    their shape; [civil_timestamp] writes that shape out, from the civil
    components of a time value, so that the source's output can be compared
    with it. *)

Module Spec.
Import Text.

(** [-MM-DDTHH:mm:ss.mmm] from the components of [t]: month, day, hour
    (24h), minute and second on two digits, milliseconds on three. *)
Definition fields_after_year (t : Z) : string :=
  "-" +:+ ToZeroPaddedDecimalString (ECMADate.MonthFromTime t + 1) 2
  +:+ "-" +:+ ToZeroPaddedDecimalString (ECMADate.DateFromTime t) 2
  +:+ "T" +:+ ToZeroPaddedDecimalString (ECMADate.HourFromTime t) 2
  +:+ ":" +:+ ToZeroPaddedDecimalString (ECMADate.MinFromTime t) 2
  +:+ ":" +:+ ToZeroPaddedDecimalString (ECMADate.SecFromTime t) 2
  +:+ "." +:+ ToZeroPaddedDecimalString (ECMADate.msFromTime t) 3.

(** [YYYY-MM-DDTHH:mm:ss.mmm]: the year on four digits, then the other
    fields. *)
Definition civil_timestamp (t : Z) : string :=
  ToZeroPaddedDecimalString (ECMADate.YearFromTime t) 4 +:+ fields_after_year t.

(** The UTC form: the civil timestamp of the instant itself, then [Z]. *)
Definition utc_timestamp (t : Z) : string := civil_timestamp t +:+ "Z".

(** The time formatter rejects the identifier [tz]: it fails with the
    invalid-timezone error, whose message echoes [tz] and names the
    three example identifiers. *)
Definition rejects_identifier (db : Intl.TimeZoneDatabase) (now : Z) (tz : string)
  : Prop :=
  exists message,
    TimeServer.getCurrentTime db now (JS.Str tz) = JS.Throw (JS.Error message)
    /\ contains tz message = true
    /\ contains "America/New_York" message = true
    /\ contains "Europe/London" message = true
    /\ contains "UTC" message = true.

(** The error of the fixed invalid-timezone message, around some
    rendering of the timezone. *)
Definition invalid_timezone_error (e : JS.Thrown) : Prop :=
  exists shown, e = JS.Error (TimeServer.invalid_timezone_message shown).

(** Every failure of the time formatter on [timezone] is that error. *)
Definition failures_replaced (db : Intl.TimeZoneDatabase) (now : Z)
    (timezone : JS.Value) : Prop :=
  forall e,
    TimeServer.getCurrentTime db now timezone = JS.Throw e ->
    invalid_timezone_error e.

End Spec.

(** ** A sample of the time zone database

    Three zones as they stand in 2025: [UTC], [Asia/Kolkata] (UTC+5:30, no
    daylight saving) and [America/New_York] (UTC-4 from 9 March 07:00 UTC
    to 2 November 06:00 UTC, UTC-5 otherwise). *)

Module Sample.

Definition new_york_dst (t : Z) : bool :=
  (1741503600000 <=? t)%Z && (t <? 1762063200000)%Z.

Definition zones (id : string) : option Intl.TimeZone :=
  if String.eqb id "UTC" then
    Some {| Intl.offset := fun _ => 0%Z; Intl.shortName := fun _ => "UTC" |}
  else if String.eqb id "Asia/Kolkata" then
    Some {| Intl.offset := fun _ => 19800000%Z; Intl.shortName := fun _ => "GMT+5:30" |}
  else if String.eqb id "America/New_York" then
    Some {| Intl.offset := fun t => if new_york_dst t then (-14400000)%Z else (-18000000)%Z;
            Intl.shortName := fun t => if new_york_dst t then "EDT" else "EST" |}
  else None.

Definition tzdb : Intl.TimeZoneDatabase :=
  {| Intl.lookup := zones; Intl.lookup_empty := eq_refl |}.

(** 2025-10-22T21:09:31.654Z, the instant of the README's examples. *)
Definition readme_instant : Z := 1761167371654.

End Sample.

(** ** The source with its effects on the world written out

    A handler is JavaScript code: besides its request it can read the
    clock, and read or assign the module-level object
    [GET_CURRENT_TIME_TOOL], which every handler closes over.  [Prog]
    makes these steps explicit, and [TimeServerP] embeds the two
    functions and the handlers of the source a second time, statement by
    statement, with each [new Date()] and each use of the module-level
    object as a step of the program. *)

Module Effect.
Import JS.

Inductive Prog (A : Type) : Type :=
| Return (a : A)
| Raise (e : Thrown)
| NewDate (k : Z -> Prog A)
| ReadTool (k : Tool.t -> Prog A)
| WriteTool (tool : Tool.t) (k : Prog A).
Arguments Return {A} a.
Arguments Raise {A} e.
Arguments NewDate {A} k.
Arguments ReadTool {A} k.
Arguments WriteTool {A} tool k.

Fixpoint bindP {A B} (p : Prog A) (f : A -> Prog B) : Prog B :=
  match p with
  | Return a => f a
  | Raise e => Raise e
  | NewDate k => NewDate (fun now => bindP (k now) f)
  | ReadTool k => ReadTool (fun tool => bindP (k tool) f)
  | WriteTool tool k => WriteTool tool (bindP k f)
  end.

(** [try { body } catch (error) { handler }]: the steps of [body] stay,
    a throw at its end runs the handler. *)
Fixpoint try_catchP {A} (body : Prog A) (handler : Thrown -> Prog A) : Prog A :=
  match body with
  | Return a => Return a
  | Raise e => handler e
  | NewDate k => NewDate (fun now => try_catchP (k now) handler)
  | ReadTool k => ReadTool (fun tool => try_catchP (k tool) handler)
  | WriteTool tool k => WriteTool tool (try_catchP k handler)
  end.

(** A computation that takes no step in the world. *)
Definition lift {A} (c : Completion A) : Prog A :=
  match c with
  | Normal a => Return a
  | Throw e => Raise e
  end.

(** [new Date()], as its time value; the identifier
    [GET_CURRENT_TIME_TOOL]. *)
Definition new_Date : Prog Z := NewDate Return.
Definition the_tool : Prog Tool.t := ReadTool Return.

(** The world a program runs in: what the clock shows, and the object
    the module-level binding holds. *)
Record World : Type := {
  clock : Z;
  tool : Tool.t;
}.

Fixpoint exec {A} (p : Prog A) (w : World) : Completion A * World :=
  match p with
  | Return a => (Normal a, w)
  | Raise e => (Throw e, w)
  | NewDate k => exec (k (clock w)) w
  | ReadTool k => exec (k (tool w)) w
  | WriteTool t k => exec k {| clock := clock w; tool := t |}
  end.

End Effect.

#[global] Instance prog_ret : MRet Effect.Prog := @Effect.Return.
#[global] Instance prog_bind : MBind Effect.Prog :=
  fun A B f p => Effect.bindP p f.

Module TimeServerP.
Import JS Effect.

Section Server.
Context (db : Intl.TimeZoneDatabase).

(** [function getCurrentTime(timezone?: string): string] *)
Definition getCurrentTime (timezone : Value) : Prog string :=
  now ← new_Date;
  if negb (ToBoolean timezone) then
    Return (ECMADate.toISOString now)
  else
    try_catchP
      (formatter ← lift (Intl.new_DateTimeFormat db "en-US" {|
         Intl.timeZone := timezone;
         Intl.year := "numeric";
         Intl.month := "2-digit";
         Intl.day := "2-digit";
         Intl.hour := "2-digit";
         Intl.minute := "2-digit";
         Intl.second := "2-digit";
         Intl.fractionalSecondDigits := 3;
         Intl.hour12 := false;
         Intl.timeZoneName := "short";
       |});
       let parts := Intl.formatToParts formatter now in
       let partsMap :=
         fromEntries (map (fun part => (Intl.type part, Intl.value part)) parts) in
       let isoString :=
         interpolate partsMap "year" +:+ "-" +:+ interpolate partsMap "month"
         +:+ "-" +:+ interpolate partsMap "day" +:+ "T" +:+ interpolate partsMap "hour"
         +:+ ":" +:+ interpolate partsMap "minute" +:+ ":" +:+ interpolate partsMap "second"
         +:+ "." +:+ interpolate partsMap "fractionalSecond" in
       Return isoString)
      (fun error =>
         shown ← lift (ToString timezone);
         Raise (Error (TimeServer.invalid_timezone_message shown))).

(** The handler registered for [ListToolsRequestSchema]. *)
Definition ListToolsHandler : Prog ListToolsResult.t :=
  descriptor ← the_tool;
  Return {| ListToolsResult.tools := [descriptor] |}.

(** The handler registered for [CallToolRequestSchema]. *)
Definition CallToolHandler (request : CallToolRequest.t) : Prog CallToolResult.t :=
  let name := CallToolRequest.name request in
  let args := CallToolRequest.arguments request in
  if negb (String.eqb name "getCurrentTime") then
    Raise (Error ("Unknown tool: " +:+ name))
  else
    try_catchP
      (let timezone := optional_get args "timezone" in
       currentTime ← getCurrentTime timezone;
       Return {|
         CallToolResult.content :=
           [ {| TextContent.type := "text"; TextContent.text := currentTime |} ];
         CallToolResult.isError := None;
       |})
      (fun error =>
         let errorMessage :=
           match error with
           | ErrorObject _ message => message
           | NonError _ => "Unknown error occurred"
           end in
         Return {|
           CallToolResult.content :=
             [ {| TextContent.type := "text";
                  TextContent.text := "Error: " +:+ errorMessage |} ];
           CallToolResult.isError := Some true;
         |}).

Definition dispatch (r : TimeServer.Request) : Prog TimeServer.Reply :=
  match r with
  | TimeServer.ListTools =>
      result ← ListToolsHandler; Return (TimeServer.ToolList result)
  | TimeServer.CallTool request =>
      result ← CallToolHandler request; Return (TimeServer.ToolResult result)
  end.

(** The server over its life, from the world [w]: the requests arrive one
    after the other, each when the clock shows the time that comes with
    it, and each handler runs in the world the handlers before it left. *)
Fixpoint serve (w : World) (events : list (Z * TimeServer.Request))
  : list (Completion TimeServer.Reply) * World :=
  match events with
  | [] => ([], w)
  | (now, r) :: rest =>
      let '(reply, w1) := exec (dispatch r) {| clock := now; tool := tool w |} in
      let '(replies, w2) := serve w1 rest in
      (reply :: replies, w2)
  end.

End Server.
End TimeServerP.

(** ** Reading a timestamp back

    The inverse direction of the renderings: the number a decimal numeral
    stands for, and the time value of civil components (ECMA-262 MakeDay,
    MakeTime and MakeDate).  The source does not call them; they say what
    a reader of the timestamp recovers from it. *)

Module Readback.
Local Open Scope Z_scope.

Definition digit_value (c : ascii) : Z := Z.of_nat (nat_of_ascii c) - 48.

Fixpoint parse_from (acc : Z) (s : string) : Z :=
  match s with
  | EmptyString => acc
  | String c s' => parse_from (10 * acc + digit_value c) s'
  end.

Definition parse_decimal (s : string) : Z := parse_from 0 s.

(** Days from the start of a year to the start of month [m] (January =
    0), [leap] being 1 in a leap year. *)
Definition DayFromMonth (m leap : Z) : Z :=
  match m with
  | 0 => 0
  | 1 => 31
  | 2 => 59 + leap
  | 3 => 90 + leap
  | 4 => 120 + leap
  | 5 => 151 + leap
  | 6 => 181 + leap
  | 7 => 212 + leap
  | 8 => 243 + leap
  | 9 => 273 + leap
  | 10 => 304 + leap
  | _ => 334 + leap
  end.

(** MakeDay for a month in 0..11 and a day of that month. *)
Definition MakeDay (year month date : Z) : Z :=
  ECMADate.DayFromYear year
  + DayFromMonth month (if ECMADate.DaysInYear year =? 366 then 1 else 0)
  + date - 1.

Definition MakeTime (hour min sec ms : Z) : Z :=
  hour * ECMADate.msPerHour + min * ECMADate.msPerMinute
  + sec * ECMADate.msPerSecond + ms.

Definition MakeDate (day time : Z) : Z := day * ECMADate.msPerDay + time.

(** The time value of the civil components of [t]. *)
Definition recompose (t : Z) : Z :=
  MakeDate
    (MakeDay (ECMADate.YearFromTime t) (ECMADate.MonthFromTime t) (ECMADate.DateFromTime t))
    (MakeTime (ECMADate.HourFromTime t) (ECMADate.MinFromTime t)
       (ECMADate.SecFromTime t) (ECMADate.msFromTime t)).

End Readback.

(** ** The process: [main] and the top level of [src/index.ts]

    [main] builds the server, registers the two handlers, connects the
    transport and logs to standard error; the top level catches a failure
    of [main], logs it and exits with status 1.  The SDK is kept to what
    the source uses of it: a server holds the handler registered for each
    request schema, and routes a request to the handler of its schema.
    Whether the transport starts is the environment's part: it is the
    argument [transport_start]. *)

Module Process.
Import JS.

Inductive Schema : Type :=
| ListToolsRequestSchema
| CallToolRequestSchema.

(** The type of the handler a schema takes: the list handler has no
    argument, the call handler reads the request (and, in it, the clock). *)
Definition HandlerOf (schema : Schema) : Type :=
  match schema with
  | ListToolsRequestSchema => Completion ListToolsResult.t
  | CallToolRequestSchema => Z -> CallToolRequest.t -> Completion CallToolResult.t
  end.

Record Server : Type := {
  name : string;
  version : string;
  capabilities : list string;
  listToolsHandler : option (HandlerOf ListToolsRequestSchema);
  callToolHandler : option (HandlerOf CallToolRequestSchema);
}.

(** [new Server({ name, version }, { capabilities })]: no handler yet. *)
Definition new_Server (name version : string) (capabilities : list string) : Server :=
  {| name := name; version := version; capabilities := capabilities;
     listToolsHandler := None; callToolHandler := None |}.

(** [server.setRequestHandler(schema, handler)]: the handler replaces
    the one registered for the schema, if any. *)
Definition setRequestHandler (schema : Schema) : HandlerOf schema -> Server -> Server :=
  match schema with
  | ListToolsRequestSchema => fun handler server =>
      {| name := name server; version := version server;
         capabilities := capabilities server;
         listToolsHandler := Some handler;
         callToolHandler := callToolHandler server |}
  | CallToolRequestSchema => fun handler server =>
      {| name := name server; version := version server;
         capabilities := capabilities server;
         listToolsHandler := listToolsHandler server;
         callToolHandler := Some handler |}
  end.

(** How the server answers a request when the clock reads [now]: through
    the handler of the request's schema; a request with no handler is
    refused. *)
Definition handle (server : Server) (now : Z) (r : TimeServer.Request)
  : Completion TimeServer.Reply :=
  match r with
  | TimeServer.ListTools =>
      match listToolsHandler server with
      | Some handler => result ← handler; Normal (TimeServer.ToolList result)
      | None => Throw (Error "Method not found")
      end
  | TimeServer.CallTool request =>
      match callToolHandler server with
      | Some handler => result ← handler now request; Normal (TimeServer.ToolResult result)
      | None => Throw (Error "Method not found")
      end
  end.

(** What the process shows of itself: the lines of [console.error], each
    with the value logged after the message if any, the exit status once
    [process.exit] is called, and the server once it is connected. *)
Record State : Type := {
  stderr : list (string * option Thrown);
  exitCode : option Z;
  connected : option Server;
}.

Definition initial : State :=
  {| stderr := []; exitCode := None; connected := None |}.

Definition console_error (message : string) (detail : option Thrown) (st : State) : State :=
  {| stderr := stderr st ++ [(message, detail)];
     exitCode := exitCode st; connected := connected st |}.

Definition process_exit (status : Z) (st : State) : State :=
  {| stderr := stderr st; exitCode := Some status; connected := connected st |}.

Definition connect (server : Server) (st : State) : State :=
  {| stderr := stderr st; exitCode := exitCode st; connected := Some server |}.

Section Main.
Context (db : Intl.TimeZoneDatabase).

(** [async function main()], with the outcome of
    [server.connect(transport)] given. *)
Definition main (transport_start : Completion unit) (st : State)
  : Completion unit * State :=
  let server := new_Server "time-mcp-server" "1.0.0" ["tools"] in
  let server :=
    setRequestHandler ListToolsRequestSchema TimeServer.ListToolsHandler server in
  let server :=
    setRequestHandler CallToolRequestSchema (TimeServer.CallToolHandler db) server in
  match transport_start with
  | Throw e => (Throw e, st)
  | Normal _ =>
      let st := connect server st in
      (Normal tt, console_error "Time MCP Server running on stdio" None st)
  end.

(** [main().catch((error) => { console.error(...); process.exit(1); })] *)
Definition run (transport_start : Completion unit) : State :=
  match main transport_start initial with
  | (Normal _, st) => st
  | (Throw error, st) =>
      process_exit 1 (console_error "Fatal error in main():" (Some error) st)
  end.

End Main.
End Process.

(* ===================================================================== *)
(** * Properties *)
(* ===================================================================== *)

(** ** The README's examples, replayed *)

Example toISOString_readme :
  ECMADate.toISOString Sample.readme_instant = "2025-10-22T21:09:31.654Z".
Proof. vm_compute. reflexivity. Qed.

Example getCurrentTime_utc_readme :
  TimeServer.getCurrentTime Sample.tzdb Sample.readme_instant JS.Undefined
  = JS.Normal "2025-10-22T21:09:31.654Z".
Proof. vm_compute. reflexivity. Qed.

Example getCurrentTime_new_york_readme :
  TimeServer.getCurrentTime Sample.tzdb Sample.readme_instant (JS.Str "America/New_York")
  = JS.Normal "2025-10-22T17:09:31.654".
Proof. vm_compute. reflexivity. Qed.

(** Winter time in New York: 2025-12-01T12:00:00.000Z is 07:00 there. *)
Example getCurrentTime_new_york_winter :
  TimeServer.getCurrentTime Sample.tzdb 1764590400000 (JS.Str "America/New_York")
  = JS.Normal "2025-12-01T07:00:00.000".
Proof. vm_compute. reflexivity. Qed.

(** [ToString] of an array joins its elements: [["UTC"]] names a zone. *)
Example getCurrentTime_array_of_one :
  TimeServer.getCurrentTime Sample.tzdb Sample.readme_instant
    (JS.Array [JS.Str "UTC"])
  = JS.Normal "2025-10-22T21:09:31.654".
Proof. vm_compute. reflexivity. Qed.

(** An object with a [toString] property of its own has no string
    conversion: the [TypeError] leaves [getCurrentTime], and the handler
    reports it. *)
Example CallTool_unprintable_timezone :
  TimeServer.CallToolHandler Sample.tzdb Sample.readme_instant
    (CallToolRequest.getCurrentTime
       (Some {[ "timezone" := JS.Object {[ "toString" := JS.Null ]} ]}))
  = JS.Normal {|
      CallToolResult.content :=
        [ {| TextContent.type := "text";
             TextContent.text := "Error: Cannot convert object to primitive value" |} ];
      CallToolResult.isError := Some true |}.
Proof. vm_compute. reflexivity. Qed.

Example getCurrentTime_kolkata :
  TimeServer.getCurrentTime Sample.tzdb Sample.readme_instant (JS.Str "Asia/Kolkata")
  = JS.Normal "2025-10-23T02:39:31.654".
Proof. vm_compute. reflexivity. Qed.

Example getCurrentTime_invalid :
  TimeServer.getCurrentTime Sample.tzdb Sample.readme_instant (JS.Str "Not/AZone")
  = JS.Throw (JS.Error "Invalid timezone: Not/AZone. Please provide a valid IANA timezone identifier (e.g., 'America/New_York', 'Europe/London', 'UTC').").
Proof. vm_compute. reflexivity. Qed.

Example CallTool_invalid :
  TimeServer.CallToolHandler Sample.tzdb Sample.readme_instant
    (CallToolRequest.getCurrentTime (Some {[ "timezone" := JS.Str "Invalid/Zone" ]}))
  = JS.Normal {|
      CallToolResult.content :=
        [ {| TextContent.type := "text";
             TextContent.text := "Error: Invalid timezone: Invalid/Zone. Please provide a valid IANA timezone identifier (e.g., 'America/New_York', 'Europe/London', 'UTC')." |} ];
      CallToolResult.isError := Some true |}.
Proof. vm_compute. reflexivity. Qed.

(** ** Calendar arithmetic *)

Module DateFacts.
Import ECMADate.
Local Open Scope Z_scope.

Lemma DaysInYear_cases y : DaysInYear y = 365 \/ DaysInYear y = 366.
Proof.
  unfold DaysInYear.
  destruct (y mod 4 =? 0), (y mod 100 =? 0), (y mod 400 =? 0); cbn; auto.
Qed.

Lemma DayFromYear_succ y : DayFromYear (y + 1) = DayFromYear y + DaysInYear y.
Proof.
  unfold DayFromYear, DaysInYear.
  destruct (Z.eqb_spec (y mod 4) 0), (Z.eqb_spec (y mod 100) 0),
    (Z.eqb_spec (y mod 400) 0);
    cbn [negb]; Z.div_mod_to_equations; lia.
Qed.

Lemma DayFromYear_mono y1 y2 : y1 <= y2 -> DayFromYear y1 <= DayFromYear y2.
Proof.
  intros Hle. unfold DayFromYear. Z.div_mod_to_equations. lia.
Qed.

Lemma DayFromYear_strict y1 y2 : y1 < y2 -> DayFromYear y1 < DayFromYear y2.
Proof.
  intros Hlt.
  pose proof (DayFromYear_mono (y1 + 1) y2 ltac:(lia)) as Hm.
  rewrite DayFromYear_succ in Hm.
  destruct (DaysInYear_cases y1); lia.
Qed.

(** A year of the Gregorian calendar has 365.2425 days on average: the
    first day of year [y] is never far from that line. *)
Lemma DayFromYear_bounds y :
  146097 * (y - 1970) - 607 <= 400 * DayFromYear y <= 146097 * (y - 1970) + 593.
Proof. unfold DayFromYear. Z.div_mod_to_equations. lia. Qed.

(** The year computed holds the day. *)
Lemma YearFromTime_bracket t :
  DayFromYear (YearFromTime t) <= Day t < DayFromYear (YearFromTime t + 1).
Proof.
  unfold YearFromTime.
  generalize (Day t). intros d.
  set (y := 1970 + 400 * d / 146097).
  assert (Hy : 146097 * (y - 1970) <= 400 * d < 146097 * (y - 1970) + 146097).
  { subst y. Z.div_mod_to_equations. lia. }
  clearbody y.
  pose proof (DayFromYear_bounds (y - 1)).
  pose proof (DayFromYear_bounds y).
  pose proof (DayFromYear_bounds (y + 1)).
  pose proof (DayFromYear_bounds (y + 1 + 1)).
  destruct (Z.ltb_spec d (DayFromYear y)).
  - replace (y - 1 + 1) with y by lia. lia.
  - destruct (Z.leb_spec (DayFromYear (y + 1)) d); lia.
Qed.

(** [YearFromTime t] is the year of ECMA-262: the largest [y] whose
    first instant is not after [t]. *)
Lemma YearFromTime_largest t y : TimeFromYear y <= t <-> y <= YearFromTime t.
Proof.
  pose proof (YearFromTime_bracket t) as [Hlo Hhi].
  assert (Hday : TimeFromYear y <= t <-> DayFromYear y <= Day t).
  { unfold TimeFromYear, Day, msPerDay. split; intros H.
    - apply Z.div_le_lower_bound; lia.
    - pose proof (Z.mul_div_le t 86400000 ltac:(lia)). lia. }
  rewrite Hday. split; intros H.
  - destruct (Z_le_gt_dec y (YearFromTime t)) as [|Hgt]; [assumption|].
    pose proof (DayFromYear_mono (YearFromTime t + 1) y ltac:(lia)). lia.
  - pose proof (DayFromYear_mono y (YearFromTime t) H). lia.
Qed.

(** The instants of the years 0000 to 9999, the years the Date Time
    String Format writes on four digits: from 0000-01-01T00:00:00.000Z
    to 9999-12-31T23:59:59.999Z. *)
Lemma four_digit_years t :
  0 <= YearFromTime t <= 9999 <-> -62167219200000 <= t <= 253402300799999.
Proof.
  pose proof (YearFromTime_largest t 0) as H0.
  pose proof (YearFromTime_largest t 10000) as H1.
  change (TimeFromYear 0) with (-62167219200000) in H0.
  change (TimeFromYear 10000) with 253402300800000 in H1.
  lia.
Qed.

Lemma DayWithinYear_range t : 0 <= DayWithinYear t < 365 + InLeapYear t.
Proof.
  unfold DayWithinYear, InLeapYear.
  pose proof (YearFromTime_bracket t) as [Hlo Hhi].
  rewrite DayFromYear_succ in Hhi.
  destruct (DaysInYear_cases (YearFromTime t)) as [E|E]; rewrite E in *; cbn; lia.
Qed.

Lemma InLeapYear_cases t : InLeapYear t = 0 \/ InLeapYear t = 1.
Proof. unfold InLeapYear. destruct (_ =? _); auto. Qed.

Lemma MonthFromTime_range t : 0 <= MonthFromTime t <= 11.
Proof.
  unfold MonthFromTime.
  repeat match goal with |- context [if ?b then _ else _] => destruct b end; lia.
Qed.

Lemma DateFromTime_range t : 1 <= DateFromTime t <= 31.
Proof.
  pose proof (DayWithinYear_range t) as Hd.
  pose proof (InLeapYear_cases t) as Hl.
  unfold DateFromTime, MonthFromTime.
  repeat match goal with
         | |- context [if ?a <? ?b then _ else _] => destruct (Z.ltb_spec a b)
         end; cbn; lia.
Qed.

Lemma HourFromTime_range t : 0 <= HourFromTime t <= 23.
Proof. unfold HourFromTime. pose proof (Z.mod_pos_bound (t / msPerHour) 24). lia. Qed.

Lemma MinFromTime_range t : 0 <= MinFromTime t <= 59.
Proof. unfold MinFromTime. pose proof (Z.mod_pos_bound (t / msPerMinute) 60). lia. Qed.

Lemma SecFromTime_range t : 0 <= SecFromTime t <= 59.
Proof. unfold SecFromTime. pose proof (Z.mod_pos_bound (t / msPerSecond) 60). lia. Qed.

Lemma msFromTime_range t : 0 <= msFromTime t <= 999.
Proof. unfold msFromTime, msPerSecond. pose proof (Z.mod_pos_bound t 1000). lia. Qed.

End DateFacts.

(** ** Decimal numerals and patterns *)

Module TextFacts.
Import Text.

(** Let [String c s1 +:+ s2] reduce inside this module. *)
#[local] Arguments String.append !_ _ / : simpl nomatch.

Lemma length_app (s1 s2 : string) :
  String.length (s1 +:+ s2) = String.length s1 + String.length s2.
Proof. induction s1 as [|c s1 IH]; cbn; [reflexivity | now rewrite IH]. Qed.

Lemma all_digits_app (s1 s2 : string) :
  all_digits (s1 +:+ s2) = all_digits s1 && all_digits s2.
Proof.
  induction s1 as [|c s1 IH]; cbn; [reflexivity|].
  now rewrite IH, andb_assoc.
Qed.

Lemma is_digit_digit_char d : (0 <= d <= 9)%Z -> is_digit (digit_char d) = true.
Proof.
  intros Hd. unfold is_digit, digit_char.
  rewrite nat_ascii_embedding by lia.
  apply andb_true_intro; split; apply Nat.leb_le; lia.
Qed.

Lemma all_digits_decimal_digits fuel n :
  (0 <= n)%Z -> all_digits (decimal_digits fuel n) = true.
Proof.
  revert n. induction fuel as [|fuel IH]; intros n Hn; cbn [decimal_digits]; [reflexivity|].
  rewrite all_digits_app. cbn [all_digits].
  rewrite is_digit_digit_char by (pose proof (Z.mod_pos_bound n 10); lia).
  destruct (Z.ltb_spec n 10); [reflexivity|].
  rewrite IH; [reflexivity | apply Z.div_pos; lia].
Qed.

(** With enough fuel a number below [10 ^ w] has at most [w] digits, and
    one that is at least [10 ^ (w - 1)] has exactly [w]. *)
Lemma length_decimal_digits_le fuel n w :
  (0 <= n < 10 ^ Z.of_nat w)%Z -> 1 <= w ->
  String.length (decimal_digits fuel n) <= w.
Proof.
  revert n w. induction fuel as [|fuel IH]; intros n w Hn Hw; cbn [decimal_digits].
  - cbn. lia.
  - rewrite length_app. cbn [String.length].
    destruct (Z.ltb_spec n 10) as [Hlt|Hge]; [cbn; lia|].
    destruct w as [|[|w]]; [lia | cbn in Hn; lia |].
    assert (Hdiv : (0 <= n / 10 < 10 ^ Z.of_nat (S w))%Z).
    { replace (Z.of_nat (S (S w))) with (Z.succ (Z.of_nat (S w))) in Hn by lia.
      rewrite Z.pow_succ_r in Hn by lia.
      split; [apply Z.div_pos; lia | apply Z.div_lt_upper_bound; lia]. }
    specialize (IH (n / 10)%Z (S w) Hdiv ltac:(lia)). lia.
Qed.

Lemma length_decimal_digits_ge fuel n w :
  (10 ^ Z.of_nat w <= n < 2 ^ Z.of_nat fuel)%Z ->
  S w <= String.length (decimal_digits fuel n).
Proof.
  revert n w. induction fuel as [|fuel IH]; intros n w Hn; cbn [decimal_digits].
  - pose proof (Z.pow_pos_nonneg 10 (Z.of_nat w)). cbn in Hn. lia.
  - rewrite length_app. cbn [String.length].
    destruct w as [|w]; [lia|].
    replace (Z.of_nat (S w)) with (Z.succ (Z.of_nat w)) in Hn by lia.
    replace (Z.of_nat (S fuel)) with (Z.succ (Z.of_nat fuel)) in Hn by lia.
    rewrite !Z.pow_succ_r in Hn by lia.
    pose proof (Z.pow_pos_nonneg 10 (Z.of_nat w) ltac:(lia) ltac:(lia)) as Hpos.
    destruct (Z.ltb_spec n 10) as [Hlt|Hge]; [lia|].
    assert (Hdiv : (10 ^ Z.of_nat w <= n / 10 < 2 ^ Z.of_nat fuel)%Z).
    { split; [apply Z.div_le_lower_bound; lia | apply Z.div_lt_upper_bound; lia]. }
    specialize (IH (n / 10)%Z w Hdiv). lia.
Qed.

Lemma all_digits_decimal n : (0 <= n)%Z -> all_digits (decimal n) = true.
Proof. apply all_digits_decimal_digits. Qed.

Lemma length_decimal_le n w :
  (0 <= n < 10 ^ Z.of_nat w)%Z -> 1 <= w -> String.length (decimal n) <= w.
Proof. apply length_decimal_digits_le. Qed.

Lemma length_decimal_ge n w :
  (10 ^ Z.of_nat w <= n)%Z -> S w <= String.length (decimal n).
Proof.
  intros Hn. apply length_decimal_digits_ge.
  pose proof (Z.pow_pos_nonneg 10 (Z.of_nat w) ltac:(lia) ltac:(lia)).
  split; [assumption|].
  pose proof (Z.log2_spec n ltac:(lia)) as [_ Hlog].
  pose proof (Z.log2_nonneg n).
  replace (Z.of_nat (S (Z.to_nat (Z.log2 n)))) with (Z.succ (Z.log2 n)) by lia.
  assumption.
Qed.

Lemma length_replicate_char k c : String.length (replicate_char k c) = k.
Proof. induction k as [|k IH]; cbn; [reflexivity | now rewrite IH]. Qed.

Lemma all_digits_replicate_zero k : all_digits (replicate_char k "0") = true.
Proof. induction k as [|k IH]; cbn; [reflexivity | assumption]. Qed.

(** A zero-padded number below [10 ^ w] is exactly [w] digits. *)
Lemma padded_width n w :
  (0 <= n < 10 ^ Z.of_nat w)%Z -> 1 <= w ->
  String.length (ToZeroPaddedDecimalString n w) = w
  /\ all_digits (ToZeroPaddedDecimalString n w) = true.
Proof.
  intros Hn Hw. unfold ToZeroPaddedDecimalString, padStart.
  pose proof (length_decimal_le n w Hn Hw).
  rewrite length_app, length_replicate_char, all_digits_app,
    all_digits_replicate_zero, all_digits_decimal by lia.
  split; [lia | reflexivity].
Qed.

(** A four-digit year prints as it is. *)
Lemma decimal_four_digits n :
  (1000 <= n <= 9999)%Z ->
  String.length (decimal n) = 4 /\ all_digits (decimal n) = true.
Proof.
  intros Hn.
  pose proof (length_decimal_le n 4 ltac:(cbn; lia) ltac:(lia)).
  pose proof (length_decimal_ge n 3 ltac:(cbn; lia)).
  split; [lia | apply all_digits_decimal; lia].
Qed.

Lemma matches_app p1 s1 p2 s2 :
  matches p1 s1 = true -> matches p2 s2 = true ->
  matches (p1 +:+ p2) (s1 +:+ s2) = true.
Proof.
  revert s1. induction p1 as [|p p1 IH]; intros [|c s1] H1 H2; cbn in *;
    try discriminate; [assumption|].
  apply andb_prop in H1 as [Hc H1].
  rewrite Hc. cbn. now apply IH.
Qed.

Lemma matches_length p s : matches p s = true -> String.length s = String.length p.
Proof.
  revert s. induction p as [|c p IH]; intros [|d s] H; cbn in *;
    try discriminate; [reflexivity|].
  apply andb_prop in H as [_ H]. now rewrite (IH s H).
Qed.

(** A run of [k] field letters matches any [k] digits. *)
Lemma matches_field c k s :
  is_field_letter c = true -> String.length s = k -> all_digits s = true ->
  matches (replicate_char k c) s = true.
Proof.
  intros Hc. revert s. induction k as [|k IH]; intros [|d s] Hlen Hs; cbn in *;
    try discriminate; [reflexivity|].
  apply andb_prop in Hs as [Hd Hs].
  rewrite Hc, Hd. cbn. apply IH; [lia | assumption].
Qed.

Lemma matches_last_digit p c s :
  matches (p +:+ String c "") s = true -> is_field_letter c = true ->
  exists d, last_char s = Some d /\ is_digit d = true.
Proof.
  intros H Hc. revert s H.
  induction p as [|q p IH]; intros [|d s] H; cbn [matches String.append] in H;
    try discriminate.
  - rewrite Hc in H. apply andb_prop in H as [Hd H].
    destruct s; [|discriminate]. exists d. cbn. auto.
  - apply andb_prop in H as [_ H].
    destruct (IH s H) as (d' & Hl & Hd').
    exists d'. split; [|assumption].
    destruct s; [discriminate|]. exact Hl.
Qed.

End TextFacts.

(** ** The two renderings *)

Module RenderFacts.
Import Text TextFacts DateFacts.

#[local] Arguments String.append !_ _ / : simpl nomatch.

Lemma append_assoc (s1 s2 s3 : string) : (s1 +:+ s2) +:+ s3 = s1 +:+ (s2 +:+ s3).
Proof. induction s1 as [|c s1 IH]; cbn; [reflexivity | now rewrite IH]. Qed.

Lemma matches_two c n :
  is_field_letter c = true -> (0 <= n <= 99)%Z ->
  matches (replicate_char 2 c) (ToZeroPaddedDecimalString n 2) = true.
Proof.
  intros Hc Hn.
  destruct (padded_width n 2 ltac:(cbn; lia) ltac:(lia)) as [Hlen Hdig].
  now apply matches_field.
Qed.

(** Whatever the year, the fields after it have their fixed widths. *)
Lemma fields_after_year_matches t :
  matches AFTER_YEAR_PATTERN (Spec.fields_after_year t) = true.
Proof.
  pose proof (MonthFromTime_range t). pose proof (DateFromTime_range t).
  pose proof (HourFromTime_range t). pose proof (MinFromTime_range t).
  pose proof (SecFromTime_range t). pose proof (msFromTime_range t).
  destruct (padded_width (ECMADate.msFromTime t) 3 ltac:(cbn; lia) ltac:(lia)).
  change AFTER_YEAR_PATTERN with
    ("-" +:+ replicate_char 2 "M" +:+ "-"
     +:+ replicate_char 2 "D" +:+ "T" +:+ replicate_char 2 "H" +:+ ":"
     +:+ replicate_char 2 "m" +:+ ":" +:+ replicate_char 2 "s" +:+ "."
     +:+ replicate_char 3 "m").
  unfold Spec.fields_after_year.
  repeat first
    [ apply matches_app
    | apply matches_two; [reflexivity | lia]
    | apply matches_field; [reflexivity | assumption | assumption]
    | reflexivity ].
Qed.

(** The civil timestamp of an instant in a four-digit year has the
    zoned pattern. *)
Lemma civil_timestamp_matches t :
  (0 <= ECMADate.YearFromTime t <= 9999)%Z ->
  matches ZONED_PATTERN (Spec.civil_timestamp t) = true.
Proof.
  intros Hy.
  destruct (padded_width (ECMADate.YearFromTime t) 4 ltac:(cbn; lia) ltac:(lia)).
  change ZONED_PATTERN with (replicate_char 4 "Y" +:+ AFTER_YEAR_PATTERN).
  unfold Spec.civil_timestamp.
  apply matches_app; [now apply matches_field | apply fields_after_year_matches].
Qed.

Lemma utc_timestamp_matches t :
  (0 <= ECMADate.YearFromTime t <= 9999)%Z ->
  matches UTC_PATTERN (Spec.utc_timestamp t) = true.
Proof.
  intros Hy. unfold Spec.utc_timestamp.
  change UTC_PATTERN with (ZONED_PATTERN +:+ "Z").
  apply matches_app; [now apply civil_timestamp_matches | reflexivity].
Qed.

(** [toISOString] is the year, the fields after it, and [Z]. *)
Lemma toISOString_fields t :
  ECMADate.toISOString t
  = ECMADate.year_string (ECMADate.YearFromTime t)
    +:+ Spec.fields_after_year t +:+ "Z".
Proof.
  unfold ECMADate.toISOString, Spec.fields_after_year.
  now rewrite !append_assoc.
Qed.

(** [toISOString] in a four-digit year is the UTC form. *)
Lemma toISOString_utc_timestamp t :
  (0 <= ECMADate.YearFromTime t <= 9999)%Z ->
  ECMADate.toISOString t = Spec.utc_timestamp t.
Proof.
  intros Hy. rewrite toISOString_fields.
  unfold ECMADate.year_string, Spec.utc_timestamp, Spec.civil_timestamp.
  destruct (Z.leb_spec 0 (ECMADate.YearFromTime t)); [|lia].
  destruct (Z.leb_spec (ECMADate.YearFromTime t) 9999); [|lia].
  cbn [andb]. now rewrite !append_assoc.
Qed.

Lemma last_char_app (s1 s2 : string) :
  s2 <> "" -> last_char (s1 +:+ s2) = last_char s2.
Proof.
  intros Hne. induction s1 as [|c s1 IH]; cbn [String.append]; [reflexivity|].
  cbn [last_char]. rewrite IH.
  destruct (s1 +:+ s2) eqn:E; [|reflexivity].
  destruct s1; cbn in E; [contradiction | discriminate].
Qed.

(** In an expanded year [toISOString] leads with a sign. *)
Lemma toISOString_expanded_year :
  ECMADate.toISOString 253402300800000 = "+010000-01-01T00:00:00.000Z".
Proof. vm_compute. reflexivity. Qed.

Lemma pad_exact n w :
  String.length (decimal n) = w -> ToZeroPaddedDecimalString n w = decimal n.
Proof.
  intros H. unfold ToZeroPaddedDecimalString, padStart.
  rewrite H, Nat.sub_diag. reflexivity.
Qed.

Lemma render_two_digit n :
  (0 <= n <= 99)%Z ->
  Intl.render_field "2-digit" n = ToZeroPaddedDecimalString n 2.
Proof.
  intros Hn. unfold Intl.render_field. cbn [String.eqb Ascii.eqb Bool.eqb].
  now rewrite Z.mod_small by lia.
Qed.

Lemma render_numeric_year y :
  (1000 <= y <= 9999)%Z ->
  Intl.render_field "numeric" (Intl.yearOfEra y) = ToZeroPaddedDecimalString y 4.
Proof.
  intros Hy. unfold Intl.render_field, Intl.yearOfEra.
  destruct (Z.leb_spec y 0); [lia|].
  cbn [String.eqb Ascii.eqb Bool.eqb].
  destruct (decimal_four_digits y Hy) as [Hlen _].
  now rewrite pad_exact.
Qed.

End RenderFacts.

(** ** The time formatter and the handlers, case by case *)

Module ServerFacts.
Import JS Text TextFacts RenderFacts.
Import TimeServer.

#[local] Arguments String.append !_ _ / : simpl nomatch.

(** A handler that ignores the error caught does the same whatever the
    body threw. *)
Lemma try_catch_constant {A} (body handler : Completion A) (e : Thrown) :
  try_catch body (fun _ => handler) = Throw e -> handler = Throw e.
Proof. destruct body; cbn; [discriminate | trivial]. Qed.

Lemma sequence_throws {A} (l : list (Completion A)) (e e0 : Thrown) :
  (forall c e', In c l -> c = Throw e' -> e' = e0) ->
  sequence l = Throw e -> e = e0.
Proof.
  induction l as [|c l IH]; intros Hall H; cbn in H; [discriminate|].
  destruct c as [a|e1]; cbn in H.
  - destruct (sequence l) as [r|e2] eqn:Hs; cbn in H; [discriminate|].
    injection H as <-. apply IH; [|reflexivity].
    intros c e' Hin. apply Hall. now right.
  - injection H as <-. apply (Hall (Throw e1)); [now left | reflexivity].
Qed.

(** Induction on a value, with the property at hand for the elements of
    an array. *)
Lemma Value_ind_elems (P : Value -> Prop) :
  P Undefined -> P Null -> (forall b, P (Boolean b)) ->
  (forall truthy text, P (Number truthy text)) -> (forall s, P (Str s)) ->
  (forall elems, Forall P elems -> P (Array elems)) ->
  (forall props, P (Object props)) ->
  forall v, P v.
Proof.
  intros HU HN HB HNum HS HA HO.
  refine (fix IH (v : Value) : P v :=
            match v with
            | Undefined => HU
            | Null => HN
            | Boolean b => HB b
            | Number truthy text => HNum truthy text
            | Str s => HS s
            | Array elems =>
                HA elems
                  ((fix all (l : list Value) : Forall P l :=
                      match l with
                      | [] => @List.Forall_nil _ P
                      | a :: l' => @List.Forall_cons _ P a l' (IH a) (all l')
                      end) elems)
            | Object props => HO props
            end).
Qed.

(** The only error [ToString] throws is the [TypeError] of the
    conversion to a primitive. *)
Lemma ToString_throws v e : ToString v = Throw e -> e = TypeError cannot_convert.
Proof.
  revert e. induction v as [ | | [|] | truthy text | s | elems IH | props]
    using Value_ind_elems; intros e; cbn [ToString]; try discriminate.
  - intros H.
    destruct (sequence _) as [strings|e1] eqn:Hs in H; cbn in H; [discriminate|].
    injection H as <-. revert Hs. apply sequence_throws.
    intros c e' Hin Hc. apply in_map_iff in Hin as (a & <- & Hin).
    rewrite Forall_forall in IH. specialize (IH a).
    destruct a; try discriminate Hc; apply IH; try assumption;
      now apply list_elem_of_In.
  - destruct (props !! "toString"); [|discriminate].
    intros H. now injection H as <-.
Qed.

(** What the template reads back from the parts of [en-US]. *)
Lemma assemble_parts (mo d y h mi s f z : string) :
  let parts :=
    [ {| Intl.type := "month"; Intl.value := mo |};
      {| Intl.type := "literal"; Intl.value := "/" |};
      {| Intl.type := "day"; Intl.value := d |};
      {| Intl.type := "literal"; Intl.value := "/" |};
      {| Intl.type := "year"; Intl.value := y |};
      {| Intl.type := "literal"; Intl.value := ", " |};
      {| Intl.type := "hour"; Intl.value := h |};
      {| Intl.type := "literal"; Intl.value := ":" |};
      {| Intl.type := "minute"; Intl.value := mi |};
      {| Intl.type := "literal"; Intl.value := ":" |};
      {| Intl.type := "second"; Intl.value := s |};
      {| Intl.type := "literal"; Intl.value := "." |};
      {| Intl.type := "fractionalSecond"; Intl.value := f |};
      {| Intl.type := "literal"; Intl.value := " " |};
      {| Intl.type := "timeZoneName"; Intl.value := z |} ] in
  let partsMap :=
    fromEntries (map (fun part => (Intl.type part, Intl.value part)) parts) in
  interpolate partsMap "year" = y /\ interpolate partsMap "month" = mo
  /\ interpolate partsMap "day" = d /\ interpolate partsMap "hour" = h
  /\ interpolate partsMap "minute" = mi /\ interpolate partsMap "second" = s
  /\ interpolate partsMap "fractionalSecond" = f.
Proof.
  cbv zeta. unfold interpolate, fromEntries.
  cbn [map fold_left fst snd Intl.type Intl.value].
  repeat split; by simplify_map_eq.
Qed.

Section WithDatabase.
Context (db : Intl.TimeZoneDatabase).

Abbreviation call := CallToolRequest.getCurrentTime.

Lemma getCurrentTime_falsy now timezone :
  ToBoolean timezone = false ->
  getCurrentTime db now timezone = Normal (ECMADate.toISOString now).
Proof. intros H. unfold getCurrentTime. now rewrite H. Qed.

(** The conversion of [timezone] fails: the formatter's constructor
    throws, and so does the template literal of the [catch] block. *)
Lemma getCurrentTime_unprintable now timezone e :
  ToBoolean timezone = true ->
  ToString timezone = Throw e ->
  getCurrentTime db now timezone = Throw e.
Proof.
  intros Ht Hs. unfold getCurrentTime, Intl.new_DateTimeFormat.
  rewrite Ht. cbn [negb Intl.timeZone]. rewrite Hs. reflexivity.
Qed.

Lemma getCurrentTime_unknown_zone now timezone shown :
  ToBoolean timezone = true ->
  ToString timezone = Normal shown ->
  Intl.lookup db shown = None ->
  getCurrentTime db now timezone = Throw (Error (invalid_timezone_message shown)).
Proof.
  intros Ht Hs Hl. unfold getCurrentTime, Intl.new_DateTimeFormat.
  rewrite Ht. cbn [negb Intl.timeZone]. rewrite Hs. cbn [bind]. rewrite Hl.
  reflexivity.
Qed.

(** The zoned branch, field by field as the formatter renders them. *)
Lemma getCurrentTime_known_zone now timezone shown zone :
  ToBoolean timezone = true ->
  ToString timezone = Normal shown ->
  Intl.lookup db shown = Some zone ->
  let lt := Intl.localTime zone now in
  getCurrentTime db now timezone
  = Normal
      (Intl.render_field "numeric" (Intl.yearOfEra (ECMADate.YearFromTime lt))
       +:+ "-" +:+ Intl.render_field "2-digit" (ECMADate.MonthFromTime lt + 1)%Z
       +:+ "-" +:+ Intl.render_field "2-digit" (ECMADate.DateFromTime lt)
       +:+ "T" +:+ Intl.render_field "2-digit" (ECMADate.HourFromTime lt)
       +:+ ":" +:+ Intl.render_field "2-digit" (ECMADate.MinFromTime lt)
       +:+ ":" +:+ Intl.render_field "2-digit" (ECMADate.SecFromTime lt)
       +:+ "." +:+ ToZeroPaddedDecimalString (ECMADate.msFromTime lt) 3).
Proof.
  intros Ht Hs Hl lt. unfold getCurrentTime, Intl.new_DateTimeFormat.
  rewrite Ht. cbn [negb Intl.timeZone]. rewrite Hs. cbn [bind]. rewrite Hl.
  match goal with
  | |- context [Intl.valid_options ?o] =>
      replace (Intl.valid_options o) with true by reflexivity
  end.
  unfold mbind, completion_bind, bind, try_catch, Intl.formatToParts.
  cbn [Intl.resolvedZone Intl.resolvedOptions Intl.year Intl.month Intl.day
       Intl.hour Intl.minute Intl.second Intl.fractionalSecondDigits].
  fold lt.
  match goal with
  | |- context [map _ [ {| Intl.value := ?mo |}; _; {| Intl.value := ?d |}; _;
                        {| Intl.value := ?y |}; _; {| Intl.value := ?h |}; _;
                        {| Intl.value := ?mi |}; _; {| Intl.value := ?s |}; _;
                        {| Intl.value := ?f |}; _; {| Intl.value := ?z |} ]] =>
      destruct (assemble_parts mo d y h mi s f z)
        as (Ey & Emo & Ed & Eh & Emi & Es & Ef)
  end.
  cbv zeta in *. rewrite Ey, Emo, Ed, Eh, Emi, Es, Ef.
  change (3 - 3)%Z with 0%Z. rewrite Z.pow_0_r, Z.div_1_r.
  reflexivity.
Qed.

(** The same, with the fields after the year gathered. *)
Lemma getCurrentTime_zoned_fields now timezone shown zone :
  ToBoolean timezone = true ->
  ToString timezone = Normal shown ->
  Intl.lookup db shown = Some zone ->
  let lt := Intl.localTime zone now in
  getCurrentTime db now timezone
  = Normal (decimal (Intl.yearOfEra (ECMADate.YearFromTime lt))
            +:+ Spec.fields_after_year lt).
Proof.
  intros Ht Hs Hl lt.
  rewrite (getCurrentTime_known_zone now timezone shown zone Ht Hs Hl). fold lt.
  pose proof (DateFacts.MonthFromTime_range lt). pose proof (DateFacts.DateFromTime_range lt).
  pose proof (DateFacts.HourFromTime_range lt). pose proof (DateFacts.MinFromTime_range lt).
  pose proof (DateFacts.SecFromTime_range lt).
  rewrite !render_two_digit by lia. reflexivity.
Qed.

(** When [timezone] converts to a string, every failure of
    [getCurrentTime] is the same error. *)
Lemma getCurrentTime_throws now timezone shown e :
  ToString timezone = Normal shown ->
  getCurrentTime db now timezone = Throw e ->
  e = Error (invalid_timezone_message shown).
Proof.
  intros Hs. unfold getCurrentTime.
  destruct (negb (ToBoolean timezone)); [discriminate|].
  intros H. apply try_catch_constant in H. rewrite Hs in H.
  unfold mbind, completion_bind, bind in H. congruence.
Qed.

(** Whatever [getCurrentTime] throws is an [Error] instance. *)
Lemma getCurrentTime_throws_error now timezone e :
  getCurrentTime db now timezone = Throw e -> instanceofError e = true.
Proof.
  intros H. destruct (ToString timezone) as [shown|e1] eqn:Hs.
  - now rewrite (getCurrentTime_throws _ _ _ _ Hs H).
  - unfold getCurrentTime in H.
    destruct (negb (ToBoolean timezone)); [discriminate|].
    apply try_catch_constant in H. rewrite Hs in H.
    unfold mbind, completion_bind, bind in H.
    injection H as <-. now rewrite (ToString_throws _ _ Hs).
Qed.

(** It fails exactly on a truthy value that does not convert to a
    string, or converts to one the database does not know. *)
Lemma getCurrentTime_fails_iff now timezone :
  (exists e, getCurrentTime db now timezone = Throw e)
  <-> ToBoolean timezone = true
      /\ forall shown, ToString timezone = Normal shown -> Intl.lookup db shown = None.
Proof.
  split.
  - intros [e He].
    destruct (ToBoolean timezone) eqn:Ht.
    + split; [reflexivity|]. intros shown Hs.
      destruct (Intl.lookup db shown) as [zone|] eqn:Hl; [|reflexivity].
      rewrite (getCurrentTime_known_zone now timezone shown zone Ht Hs Hl) in He.
      discriminate.
    + rewrite getCurrentTime_falsy in He by assumption. discriminate.
  - intros [Ht Hl]. destruct (ToString timezone) as [shown|e] eqn:Hs.
    + eexists. apply getCurrentTime_unknown_zone; eauto.
    + exists e. now apply getCurrentTime_unprintable.
Qed.

Lemma CallToolHandler_success now args s :
  getCurrentTime db now (optional_get args "timezone") = Normal s ->
  CallToolHandler db now (call args)
  = Normal {| CallToolResult.content :=
                [ {| TextContent.type := "text"; TextContent.text := s |} ];
              CallToolResult.isError := None |}.
Proof.
  intros H. unfold CallToolHandler, CallToolRequest.getCurrentTime.
  cbn [CallToolRequest.name CallToolRequest.arguments].
  change (negb ("getCurrentTime" =? "getCurrentTime")%string) with false.
  cbv zeta. rewrite H. reflexivity.
Qed.

Lemma CallToolHandler_failure now args name message :
  getCurrentTime db now (optional_get args "timezone")
  = Throw (ErrorObject name message) ->
  CallToolHandler db now (call args)
  = Normal {| CallToolResult.content :=
                [ {| TextContent.type := "text";
                     TextContent.text := "Error: " +:+ message |} ];
              CallToolResult.isError := Some true |}.
Proof.
  intros H. unfold CallToolHandler, CallToolRequest.getCurrentTime.
  cbn [CallToolRequest.name CallToolRequest.arguments].
  change (negb ("getCurrentTime" =? "getCurrentTime")%string) with false.
  cbv zeta. rewrite H. reflexivity.
Qed.

(** The fallback text of the handler's [catch] is never used: what it
    catches is always an [Error] instance. *)
Lemma CallToolHandler_never_unknown_error now args v :
  getCurrentTime db now (optional_get args "timezone") <> Throw (NonError v).
Proof.
  intros H. apply getCurrentTime_throws_error in H. discriminate.
Qed.

Lemma serve_app events1 events2 :
  serve db (events1 ++ events2) = serve db events1 ++ serve db events2.
Proof.
  induction events1 as [|[now r] events1 IH]; cbn; [reflexivity | now rewrite IH].
Qed.

Lemma serve_length events : length (serve db events) = length events.
Proof. induction events as [|[now r] events IH]; cbn; [reflexivity | now rewrite IH]. Qed.

End WithDatabase.

Lemma prefix_app (p s : string) : String.prefix p (p +:+ s) = true.
Proof.
  induction p as [|c p IH]; cbn; [now destruct s|].
  destruct (ascii_dec c c); [assumption | contradiction].
Qed.

Lemma contains_prefix (sub s : string) : String.prefix sub s = true -> contains sub s = true.
Proof. intros H. destruct s; cbn in *; rewrite H; reflexivity. Qed.

Lemma contains_app_r (sub p s : string) :
  contains sub s = true -> contains sub (p +:+ s) = true.
Proof.
  intros H. induction p as [|c p IH]; cbn [String.append contains]; [assumption|].
  rewrite IH. apply orb_true_r.
Qed.

End ServerFacts.

(** ** The steps the handlers take in the world *)

Module EffectFacts.
Import JS Effect.

Lemma exec_lift {A} (c : Completion A) (w : World) : exec (lift c) w = (c, w).
Proof. destruct c; reflexivity. Qed.

(** [getCurrentTime] reads the clock once, first, and takes no other
    step: what follows is the pure computation on the time value read. *)
Lemma getCurrentTime_steps (db : Intl.TimeZoneDatabase) (timezone : Value) :
  exists k,
    TimeServerP.getCurrentTime db timezone = NewDate k
    /\ forall now, k now = lift (TimeServer.getCurrentTime db now timezone).
Proof.
  eexists. split; [reflexivity|]. intros now. cbn [bindP].
  unfold TimeServer.getCurrentTime.
  destruct (negb (ToBoolean timezone)); [reflexivity|].
  destruct (Intl.new_DateTimeFormat db "en-US" _) as [formatter|e]; cbn.
  - reflexivity.
  - destruct (ToString timezone) as [shown|e']; reflexivity.
Qed.

(** The call handler: no step at all for an unknown tool, one reading of
    the clock otherwise; the response is the pure computation on the
    request and the time value read. *)
Lemma CallToolHandler_steps (db : Intl.TimeZoneDatabase) (request : CallToolRequest.t) :
  (CallToolRequest.name request <> "getCurrentTime"
   /\ TimeServerP.CallToolHandler db request
      = Raise (Error ("Unknown tool: " +:+ CallToolRequest.name request)))
  \/ (CallToolRequest.name request = "getCurrentTime"
      /\ exists k,
          TimeServerP.CallToolHandler db request = NewDate k
          /\ forall now, k now = lift (TimeServer.CallToolHandler db now request)).
Proof.
  unfold TimeServerP.CallToolHandler, TimeServer.CallToolHandler.
  destruct (String.eqb_spec (CallToolRequest.name request) "getCurrentTime") as [E|Hne];
    cbn [negb]; [right | left; split; [assumption | reflexivity]].
  split; [assumption|].
  destruct (getCurrentTime_steps db
              (optional_get (CallToolRequest.arguments request) "timezone"))
    as (k & Ek & Hk).
  cbv zeta. rewrite Ek. eexists. split; [reflexivity|].
  intros now. cbn beta. rewrite Hk.
  destruct (TimeServer.getCurrentTime db now _) as [s|e]; reflexivity.
Qed.

(** Run in a world, the call handler returns what the pure handler
    computes at the world's clock, and leaves the world as it was. *)
Lemma exec_CallToolHandler (db : Intl.TimeZoneDatabase) (request : CallToolRequest.t)
    (w : World) :
  exec (TimeServerP.CallToolHandler db request) w
  = (TimeServer.CallToolHandler db (clock w) request, w).
Proof.
  destruct (CallToolHandler_steps db request) as [[Hne E] | (Hname & k & E & Hk)];
    rewrite E.
  - cbn [exec]. f_equal. unfold TimeServer.CallToolHandler.
    destruct (String.eqb_spec (CallToolRequest.name request) "getCurrentTime");
      [contradiction | reflexivity].
  - cbn [exec]. rewrite Hk. apply exec_lift.
Qed.

(** The list handler reads the module-level object and leaves the world
    as it was. *)
Lemma exec_ListToolsHandler (w : World) :
  exec TimeServerP.ListToolsHandler w
  = (Normal {| ListToolsResult.tools := [tool w] |}, w).
Proof. reflexivity. Qed.

Lemma exec_dispatch (db : Intl.TimeZoneDatabase) (r : TimeServer.Request) (w : World) :
  exec (TimeServerP.dispatch db r) w
  = (match r with
     | TimeServer.ListTools =>
         Normal (TimeServer.ToolList {| ListToolsResult.tools := [tool w] |})
     | TimeServer.CallTool request => TimeServer.dispatch db (clock w) r
     end, w).
Proof.
  destruct r as [|request]; [reflexivity|].
  unfold TimeServerP.dispatch, TimeServer.dispatch.
  destruct (CallToolHandler_steps db request) as [[Hne E] | (Hname & k & E & Hk)].
  - rewrite E. cbn. f_equal. unfold TimeServer.CallToolHandler.
    destruct (String.eqb_spec (CallToolRequest.name request) "getCurrentTime");
      [contradiction | reflexivity].
  - rewrite E. cbn. rewrite Hk.
    destruct (TimeServer.CallToolHandler db (clock w) request); reflexivity.
Qed.

Section Serving.
Context (db : Intl.TimeZoneDatabase).

(** Serving requests never changes the module-level object. *)
Lemma serveP_tool (w : World) events : tool (TimeServerP.serve db w events).2 = tool w.
Proof.
  revert w. induction events as [|[now r] events IH]; intros w; [reflexivity|].
  cbn [TimeServerP.serve]. rewrite exec_dispatch.
  destruct (TimeServerP.serve db _ events) as [replies w2] eqn:Es.
  cbn. change w2 with (replies, w2).2. rewrite <- Es, IH. reflexivity.
Qed.

(** The replies depend on the world at start through the module-level
    object only. *)
Lemma serveP_same_tool (w w' : World) events :
  tool w = tool w' ->
  (TimeServerP.serve db w events).1 = (TimeServerP.serve db w' events).1.
Proof.
  intros Ht. destruct events as [|[now r] events]; [reflexivity|].
  cbn [TimeServerP.serve]. now rewrite Ht.
Qed.

Lemma serveP_cons (w : World) now r events :
  (TimeServerP.serve db w ((now, r) :: events)).1
  = (exec (TimeServerP.dispatch db r) {| clock := now; tool := tool w |}).1
    :: (TimeServerP.serve db w events).1.
Proof.
  cbn [TimeServerP.serve]. rewrite exec_dispatch.
  destruct (TimeServerP.serve db {| clock := now; tool := tool w |} events)
    as [replies w2] eqn:Es.
  cbn. f_equal.
  change replies with (replies, w2).1. rewrite <- Es.
  now apply serveP_same_tool.
Qed.

Lemma serveP_app (w : World) events1 events2 :
  (TimeServerP.serve db w (events1 ++ events2)).1
  = (TimeServerP.serve db w events1).1 ++ (TimeServerP.serve db w events2).1.
Proof.
  induction events1 as [|[now r] events1 IH]; [reflexivity|].
  rewrite <- app_comm_cons, !serveP_cons, IH. reflexivity.
Qed.

Lemma serveP_length (w : World) events :
  length (TimeServerP.serve db w events).1 = length events.
Proof.
  induction events as [|[now r] events IH]; [reflexivity|].
  rewrite serveP_cons. cbn. now rewrite IH.
Qed.

(** From a world whose module-level object is the source's descriptor,
    the replies are those of the pure handlers. *)
Lemma serveP_refines (w : World) events :
  tool w = TimeServer.GET_CURRENT_TIME_TOOL ->
  (TimeServerP.serve db w events).1 = TimeServer.serve db events.
Proof.
  intros Ht. induction events as [|[now r] events IH]; [reflexivity|].
  rewrite serveP_cons, exec_dispatch, IH. cbn [fst TimeServer.serve tool clock].
  f_equal. destruct r; [now rewrite Ht | reflexivity].
Qed.

End Serving.

(** The world keeps what a program assigns: had a handler assigned the
    module-level object, the next list request would show it. *)
Lemma assignment_is_observed (w : World) (descriptor : Tool.t) :
  (exec (bindP (WriteTool descriptor (Return tt)) (fun _ => TimeServerP.ListToolsHandler)) w).1
  = Normal {| ListToolsResult.tools := [descriptor] |}.
Proof. reflexivity. Qed.

End EffectFacts.

(* ===================================================================== *)
(** * The claims *)
(* ===================================================================== *)

Section Claims.
Import JS Text TextFacts RenderFacts ServerFacts.
Import TimeServer.

#[local] Arguments String.append !_ _ / : simpl nomatch.

Abbreviation call := CallToolRequest.getCurrentTime.
Abbreviation text_item s := {| TextContent.type := "text"; TextContent.text := s |}.

(** C1: a call of [getCurrentTime] whose [timezone] is a string the host
    does not recognize, and on which the time formatter fails, returns
    normally from the handler (nothing is thrown past it), with [isError]
    true and one text item that begins with
    [Error: Invalid timezone: ] followed by the string. *)
Theorem C1_invalid_timezone_reported
    (db : Intl.TimeZoneDatabase) (now : Z) (args : gmap string Value) (tz : string) :
  args !! "timezone" = Some (Str tz) ->
  Intl.lookup db tz = None ->
  (exists e, getCurrentTime db now (Str tz) = Throw e) ->
  exists text,
    CallToolHandler db now (call (Some args))
    = Normal {| CallToolResult.content := [text_item text];
                CallToolResult.isError := Some true |}
    /\ starts_with ("Error: Invalid timezone: " +:+ tz) text = true.
Proof.
  intros Harg _ [e He].
  assert (Hget : optional_get (Some args) "timezone" = Str tz).
  { unfold optional_get. now rewrite Harg. }
  rewrite (getCurrentTime_throws db now (Str tz) tz e eq_refl He) in He.
  eexists. split.
  - apply CallToolHandler_failure with (name := "Error"). rewrite Hget. exact He.
  - unfold invalid_timezone_message, starts_with.
    match goal with
    | |- String.prefix ?p ("Error: " +:+ "Invalid timezone: " +:+ tz +:+ ?rest) = true =>
        change ("Error: " +:+ "Invalid timezone: " +:+ tz +:+ rest) with (p +:+ rest)
    end.
    apply prefix_app.
Qed.

Lemma C1_witness :
  exists text,
    CallToolHandler Sample.tzdb Sample.readme_instant
      (call (Some {[ "timezone" := Str "Invalid/Zone" ]}))
    = Normal {| CallToolResult.content := [text_item text];
                CallToolResult.isError := Some true |}
    /\ starts_with "Error: Invalid timezone: Invalid/Zone" text = true.
Proof.
  apply (C1_invalid_timezone_reported Sample.tzdb Sample.readme_instant
           {[ "timezone" := Str "Invalid/Zone" ]} "Invalid/Zone").
  - reflexivity.
  - reflexivity.
  - eexists. vm_compute. reflexivity.
Defined.

(** C2: when the [timezone] argument is [undefined] or the empty string,
    [getCurrentTime] does not fail and returns [toISOString] of the
    instant: the UTC year, then month to milliseconds in their fixed
    widths, then [Z].  For an instant in a four-digit year that is the
    UTC form [YYYY-MM-DDTHH:mm:ss.mmmZ]. *)
Theorem C2_utc_when_absent_or_empty
    (db : Intl.TimeZoneDatabase) (now : Z) (timezone : Value) :
  timezone = Undefined \/ timezone = Str "" ->
  exists s,
    getCurrentTime db now timezone = Normal s
    /\ s = ECMADate.toISOString now
    /\ s = ECMADate.year_string (ECMADate.YearFromTime now)
           +:+ Spec.fields_after_year now +:+ "Z"
    /\ matches (AFTER_YEAR_PATTERN +:+ "Z") (Spec.fields_after_year now +:+ "Z") = true
    /\ ((0 <= ECMADate.YearFromTime now <= 9999)%Z ->
        s = Spec.utc_timestamp now /\ matches UTC_PATTERN s = true).
Proof.
  intros Htz. exists (ECMADate.toISOString now). repeat split.
  - apply getCurrentTime_falsy. destruct Htz as [-> | ->]; reflexivity.
  - apply toISOString_fields.
  - apply matches_app; [apply fields_after_year_matches | reflexivity].
  - now apply toISOString_utc_timestamp.
  - rewrite toISOString_utc_timestamp by assumption. now apply utc_timestamp_matches.
Qed.

Lemma C2_witness :
  getCurrentTime Sample.tzdb Sample.readme_instant (Str "")
  = Normal "2025-10-22T21:09:31.654Z"
  /\ matches UTC_PATTERN "2025-10-22T21:09:31.654Z" = true.
Proof.
  destruct (C2_utc_when_absent_or_empty Sample.tzdb Sample.readme_instant (Str "")
              (or_intror eq_refl)) as (s & Hs & Heq & _ & _ & Hshape).
  assert (Hy : (0 <= ECMADate.YearFromTime Sample.readme_instant <= 9999)%Z)
    by (vm_compute; split; discriminate).
  destruct (Hshape Hy) as [_ Hm].
  assert (Es : s = "2025-10-22T21:09:31.654Z") by (rewrite Heq; vm_compute; reflexivity).
  rewrite Es in Hs, Hm. split; assumption.
Defined.

(** C3: for an identifier [tz] the host recognizes, [getCurrentTime]
    returns normally the civil year of the instant in the zone followed
    by its month to milliseconds in their fixed widths; the string ends
    in a digit: no offset, no [Z].  When the civil year has four digits
    this is the 23-character string [YYYY-MM-DDTHH:mm:ss.mmm]. *)
Theorem C3_zoned_timestamp
    (db : Intl.TimeZoneDatabase) (now : Z) (tz : string) (zone : Intl.TimeZone) :
  Intl.lookup db tz = Some zone ->
  exists s,
    getCurrentTime db now (Str tz) = Normal s
    /\ s = decimal (Intl.yearOfEra (ECMADate.YearFromTime (Intl.localTime zone now)))
           +:+ Spec.fields_after_year (Intl.localTime zone now)
    /\ matches AFTER_YEAR_PATTERN (Spec.fields_after_year (Intl.localTime zone now)) = true
    /\ (exists d, last_char s = Some d /\ is_digit d = true)
    /\ ((1000 <= ECMADate.YearFromTime (Intl.localTime zone now) <= 9999)%Z ->
        s = Spec.civil_timestamp (Intl.localTime zone now)
        /\ String.length s = 23
        /\ matches ZONED_PATTERN s = true).
Proof.
  intros Hl.
  assert (Ht : ToBoolean (Str tz) = true).
  { cbn. destruct tz; [|reflexivity]. rewrite Intl.lookup_empty in Hl. discriminate. }
  set (lt := Intl.localTime zone now).
  pose proof (fields_after_year_matches lt) as Hfields.
  eexists. split; [|split; [reflexivity|split; [exact Hfields|split]]].
  - apply (getCurrentTime_zoned_fields db now (Str tz) tz zone Ht eq_refl Hl).
  - rewrite last_char_app.
    + apply (matches_last_digit "-MM-DDTHH:mm:ss.mm" "m"); [exact Hfields | reflexivity].
    + intros E. rewrite E in Hfields. discriminate Hfields.
  - intros Hy.
    assert (Es : decimal (Intl.yearOfEra (ECMADate.YearFromTime lt))
                 = ToZeroPaddedDecimalString (ECMADate.YearFromTime lt) 4).
    { apply (render_numeric_year _ Hy). }
    rewrite Es. fold (Spec.civil_timestamp lt).
    pose proof (civil_timestamp_matches lt ltac:(lia)) as Hm.
    split; [reflexivity|]. split; [|assumption].
    now rewrite (matches_length _ _ Hm).
Qed.

Lemma C3_witness :
  getCurrentTime Sample.tzdb Sample.readme_instant (Str "America/New_York")
  = Normal "2025-10-22T17:09:31.654"
  /\ String.length "2025-10-22T17:09:31.654" = 23
  /\ matches ZONED_PATTERN "2025-10-22T17:09:31.654" = true.
Proof.
  destruct (Sample.zones "America/New_York") as [zone|] eqn:Hz; [|discriminate Hz].
  destruct (C3_zoned_timestamp Sample.tzdb Sample.readme_instant "America/New_York" zone Hz)
    as (s & Hs & Hshape).
  injection Hz as <-.
  destruct Hshape as (_ & _ & _ & Hshape).
  destruct Hshape as (Heq & Hlen & Hm); [vm_compute; split; discriminate|].
  assert (Es : s = "2025-10-22T17:09:31.654") by (rewrite Heq; vm_compute; reflexivity).
  rewrite Es in Hs, Hlen, Hm. repeat split; assumption.
Defined.

(** C4, as stated, fails at the empty identifier: no database knows it,
    yet [getCurrentTime] takes it for a missing argument and returns the
    UTC timestamp instead of failing. *)
Lemma C4_counterexample_empty_identifier :
  ~ (Intl.lookup Sample.tzdb "" = None ->
     Spec.rejects_identifier Sample.tzdb Sample.readme_instant "").
Proof.
  intros H. destruct (H eq_refl) as (message & Hthrow & _).
  vm_compute in Hthrow. discriminate Hthrow.
Qed.

(** C4 (amended): for every identifier [tz] that is not empty and that the
    host does not recognize, [getCurrentTime] fails with the
    invalid-timezone error; its message contains [tz] and the example
    identifiers [America/New_York], [Europe/London] and [UTC]. *)
Theorem C4_unrecognized_identifier_rejected
    (db : Intl.TimeZoneDatabase) (now : Z) (tz : string) :
  tz <> "" ->
  Intl.lookup db tz = None ->
  Spec.rejects_identifier db now tz.
Proof.
  intros Hne Hl. exists (invalid_timezone_message tz). split.
  - apply getCurrentTime_unknown_zone; [|reflexivity|exact Hl].
    cbn. destruct tz; [contradiction | reflexivity].
  - unfold invalid_timezone_message.
    split; [|repeat split].
    + apply contains_app_r, contains_prefix, prefix_app.
    + do 2 apply contains_app_r. vm_compute. reflexivity.
    + do 2 apply contains_app_r. vm_compute. reflexivity.
    + do 2 apply contains_app_r. vm_compute. reflexivity.
Qed.

Lemma C4_witness : Spec.rejects_identifier Sample.tzdb Sample.readme_instant "Not/AZone".
Proof.
  apply (C4_unrecognized_identifier_rejected Sample.tzdb Sample.readme_instant "Not/AZone").
  - discriminate.
  - reflexivity.
Defined.

(** C5: a call whose tool name is not [getCurrentTime] makes the handler
    throw an [Error] with message [Unknown tool: ] followed by the name;
    the throw happens before the handler's [try], so it leaves the handler
    as a fault and not as a response.  The request is not dropped: serving
    it yields this outcome in the request's own slot. *)
Theorem C5_unknown_tool_throws
    (db : Intl.TimeZoneDatabase) (now : Z) (request : CallToolRequest.t) :
  CallToolRequest.name request <> "getCurrentTime" ->
  CallToolHandler db now request
  = Throw (Error ("Unknown tool: " +:+ CallToolRequest.name request))
  /\ (forall result, CallToolHandler db now request <> Normal result)
  /\ serve db [(now, CallTool request)]
     = [Throw (Error ("Unknown tool: " +:+ CallToolRequest.name request))].
Proof.
  intros Hname.
  assert (H : CallToolHandler db now request
              = Throw (Error ("Unknown tool: " +:+ CallToolRequest.name request))).
  { unfold CallToolHandler.
    destruct (String.eqb_spec (CallToolRequest.name request) "getCurrentTime");
      [contradiction | reflexivity]. }
  split; [exact H|]. split.
  - intros result. rewrite H. discriminate.
  - cbn [serve dispatch]. now rewrite H.
Qed.

Lemma C5_witness :
  CallToolHandler Sample.tzdb Sample.readme_instant
    {| CallToolRequest.name := "nonexistentTool"; CallToolRequest.arguments := Some ∅ |}
  = Throw (Error "Unknown tool: nonexistentTool").
Proof.
  apply (C5_unknown_tool_throws Sample.tzdb Sample.readme_instant
           {| CallToolRequest.name := "nonexistentTool";
              CallToolRequest.arguments := Some ∅ |}).
  discriminate.
Defined.

(** C6: whenever the time formatter succeeds with a string [s], the
    handler returns the success response: one text item holding [s], and
    no [isError] property, which the protocol reads as [false].  In
    particular a call with the empty arguments object succeeds, and at an
    instant in a four-digit year its text matches the UTC pattern. *)
Theorem C6_success_response (db : Intl.TimeZoneDatabase) (now : Z) :
  (forall args s,
      getCurrentTime db now (optional_get args "timezone") = Normal s ->
      exists r,
        CallToolHandler db now (call args) = Normal r
        /\ CallToolResult.content r = [text_item s]
        /\ CallToolResult.isError r = None
        /\ CallToolResult.failed r = false)
  /\ exists s,
      CallToolHandler db now (call (Some ∅))
      = Normal {| CallToolResult.content := [text_item s];
                  CallToolResult.isError := None |}
      /\ s = ECMADate.toISOString now
      /\ ((0 <= ECMADate.YearFromTime now <= 9999)%Z -> matches UTC_PATTERN s = true).
Proof.
  split.
  - intros args s H. eexists. split; [apply CallToolHandler_success; exact H|].
    repeat split.
  - exists (ECMADate.toISOString now). split; [|split].
    + apply CallToolHandler_success. reflexivity.
    + reflexivity.
    + intros Hy. rewrite toISOString_utc_timestamp by assumption.
      now apply utc_timestamp_matches.
Qed.

Lemma C6_witness :
  CallToolHandler Sample.tzdb Sample.readme_instant (call (Some ∅))
  = Normal {| CallToolResult.content := [text_item "2025-10-22T21:09:31.654Z"];
              CallToolResult.isError := None |}
  /\ matches UTC_PATTERN "2025-10-22T21:09:31.654Z" = true.
Proof.
  destruct (C6_success_response Sample.tzdb Sample.readme_instant) as [Hall _].
  destruct (Hall (Some ∅) "2025-10-22T21:09:31.654Z") as (r & Hr & Hc & He & _).
  - vm_compute. reflexivity.
  - split; [|vm_compute; reflexivity].
    rewrite Hr. destruct r as [content isError]. cbn in Hc, He. now rewrite Hc, He.
Defined.

(** C7: listing the tools cannot fail and returns exactly one descriptor,
    named [getCurrentTime]; its input schema is an object schema whose
    only property is [timezone], of type string and not required.  The
    handler reads neither the clock nor the request, and serving a list
    request leaves later replies as they would be without it. *)
Theorem C7_list_tools :
  ListToolsHandler = Normal {| ListToolsResult.tools := [GET_CURRENT_TIME_TOOL] |}
  /\ Tool.name GET_CURRENT_TIME_TOOL = "getCurrentTime"
  /\ InputSchema.type (Tool.inputSchema GET_CURRENT_TIME_TOOL) = "object"
  /\ (exists p,
        InputSchema.properties (Tool.inputSchema GET_CURRENT_TIME_TOOL)
        = {[ "timezone" := p ]}
        /\ PropertySchema.type p = "string")
  /\ size (InputSchema.properties (Tool.inputSchema GET_CURRENT_TIME_TOOL)) = 1
  /\ InputSchema.required (Tool.inputSchema GET_CURRENT_TIME_TOOL) = None
  /\ forall db now events,
      serve db ((now, ListTools) :: events)
      = Normal (ToolList {| ListToolsResult.tools := [GET_CURRENT_TIME_TOOL] |})
        :: serve db events.
Proof.
  split; [reflexivity|]. split; [reflexivity|]. split; [reflexivity|].
  split; [eexists; split; reflexivity|].
  split; [apply map_size_singleton|]. split; reflexivity.
Qed.

(** C8: the response to a call is a function of the call and of the one
    clock reading it captures.  Written out with its effects, the call
    handler takes no step in the world for an unknown tool and exactly one
    step otherwise, a reading of the clock, after which it computes
    without reading or assigning anything.  So, run in any world, it
    returns what the pure handler gives at that world's clock and leaves
    the world as it found it; served after any history of requests, from
    any state of the module-level object, a call made at a given instant
    gets one and the same reply; and serving a call changes no reply that
    comes after it. *)
Theorem C8_call_is_a_function_of_arguments_and_instant
    (db : Intl.TimeZoneDatabase) (request : CallToolRequest.t) :
  (TimeServerP.CallToolHandler db request
   = Effect.Raise (Error ("Unknown tool: " +:+ CallToolRequest.name request))
   \/ exists k,
       TimeServerP.CallToolHandler db request = Effect.NewDate k
       /\ forall now, k now = Effect.lift (CallToolHandler db now request))
  /\ (forall w,
        Effect.exec (TimeServerP.CallToolHandler db request) w
        = (CallToolHandler db (Effect.clock w) request, w))
  /\ (forall w1 w2 before1 before2 after1 after2 now,
        (TimeServerP.serve db w1 (before1 ++ (now, CallTool request) :: after1)).1
          !! length before1
        = Some (dispatch db now (CallTool request))
        /\ (TimeServerP.serve db w1 (before1 ++ (now, CallTool request) :: after1)).1
             !! length before1
           = (TimeServerP.serve db w2 (before2 ++ (now, CallTool request) :: after2)).1
               !! length before2)
  /\ (forall w now rest,
        (TimeServerP.serve db w ((now, CallTool request) :: rest)).1
        = dispatch db now (CallTool request) :: (TimeServerP.serve db w rest).1).
Proof.
  assert (Hat : forall w before after now,
             (TimeServerP.serve db w (before ++ (now, CallTool request) :: after)).1
               !! length before
             = Some (dispatch db now (CallTool request))).
  { intros w before after now.
    rewrite EffectFacts.serveP_app, EffectFacts.serveP_cons, EffectFacts.exec_dispatch.
    rewrite lookup_app_r by (rewrite EffectFacts.serveP_length; lia).
    rewrite EffectFacts.serveP_length, Nat.sub_diag. reflexivity. }
  split; [|split; [|split]].
  - destruct (EffectFacts.CallToolHandler_steps db request)
      as [[_ E] | (_ & k & E & Hk)]; [now left | right; eauto].
  - apply EffectFacts.exec_CallToolHandler.
  - intros w1 w2 before1 before2 after1 after2 now.
    split; [apply Hat | now rewrite !Hat].
  - intros w now rest.
    now rewrite EffectFacts.serveP_cons, EffectFacts.exec_dispatch.
Qed.

(** C9, as stated, fails for a [timezone] that has no string conversion,
    such as the object [{"toString": null}]: the formatter's constructor
    throws on it, and so does the template literal of the [catch] block,
    so the [TypeError] of the conversion leaves [getCurrentTime] in place
    of the fixed message. *)
Lemma C9_counterexample_unprintable_timezone :
  ~ Spec.failures_replaced Sample.tzdb Sample.readme_instant
      (Object {[ "toString" := Null ]}).
Proof.
  intros H.
  destruct (H (TypeError cannot_convert)) as [shown Hshown].
  - vm_compute. reflexivity.
  - discriminate Hshown.
Qed.

(** C9 (amended): for every [timezone] value that converts to a string,
    whenever [getCurrentTime] fails, whatever the formatter threw, the
    error it throws is a plain [Error] whose message is the fixed text
    around that string; the handler reports that text, so nothing of the
    original error reaches the caller. *)
Theorem C9_failure_message_is_fixed
    (db : Intl.TimeZoneDatabase) (now : Z) (timezone : Value) (shown : string)
    (e : Thrown) :
  ToString timezone = Normal shown ->
  getCurrentTime db now timezone = Throw e ->
  e = Error ("Invalid timezone: " +:+ shown
             +:+ ". Please provide a valid IANA timezone identifier (e.g., 'America/New_York', 'Europe/London', 'UTC').")
  /\ Spec.failures_replaced db now timezone
  /\ (forall (body : Completion string) e',
        try_catch body
          (fun _ => s ← ToString timezone; Throw (Error (invalid_timezone_message s)))
        = Throw e' ->
        e' = e)
  /\ forall args,
      optional_get args "timezone" = timezone ->
      CallToolHandler db now (call args)
      = Normal {| CallToolResult.content :=
                    [text_item ("Error: " +:+ invalid_timezone_message shown)];
                  CallToolResult.isError := Some true |}.
Proof.
  intros Hs H. pose proof (getCurrentTime_throws db now timezone shown e Hs H) as He.
  split; [exact He|]. split; [|split].
  - intros e1 H1. exists shown. exact (getCurrentTime_throws db now timezone shown e1 Hs H1).
  - intros body e' Hb. apply try_catch_constant in Hb. rewrite Hs in Hb.
    unfold mbind, completion_bind, bind in Hb. rewrite He. congruence.
  - intros args <-. apply CallToolHandler_failure with (name := "Error").
    rewrite H, He. reflexivity.
Qed.

Lemma C9_witness :
  CallToolHandler Sample.tzdb Sample.readme_instant
    (call (Some {[ "timezone" := Number true "42" ]}))
  = Normal {| CallToolResult.content :=
                [text_item "Error: Invalid timezone: 42. Please provide a valid IANA timezone identifier (e.g., 'America/New_York', 'Europe/London', 'UTC')."];
              CallToolResult.isError := Some true |}.
Proof.
  destruct (C9_failure_message_is_fixed Sample.tzdb Sample.readme_instant
              (Number true "42") "42" (Error (invalid_timezone_message "42")))
    as (_ & _ & _ & Hcall).
  - reflexivity.
  - vm_compute. reflexivity.
  - rewrite (Hcall (Some {[ "timezone" := Number true "42" ]}))
      by (vm_compute; reflexivity).
    vm_compute. reflexivity.
Defined.

(** C10: every response the handler produces for the tool
    [getCurrentTime], whatever the arguments and whether the formatter
    succeeds or fails, has exactly one content item, of type text. *)
Theorem C10_single_text_item
    (db : Intl.TimeZoneDatabase) (now : Z) (args : option (gmap string Value)) :
  exists text flag,
    CallToolHandler db now (call args)
    = Normal {| CallToolResult.content := [text_item text];
                CallToolResult.isError := flag |}.
Proof.
  destruct (getCurrentTime db now (optional_get args "timezone")) as [s|[name message|v]] eqn:H.
  - exists s, None. now apply CallToolHandler_success.
  - exists ("Error: " +:+ message), (Some true).
    now apply CallToolHandler_failure with (name := name).
  - now apply CallToolHandler_never_unknown_error in H.
Qed.

End Claims.

(* ===================================================================== *)
(** * Further properties of the code *)
(* ===================================================================== *)

(** ** Reading back numerals and time values *)

Module ReadbackFacts.
Import Text TextFacts DateFacts Readback.
Local Open Scope Z_scope.

#[local] Arguments String.append !_ _ / : simpl nomatch.

Lemma parse_from_app acc (s1 s2 : string) :
  parse_from acc (s1 +:+ s2) = parse_from (parse_from acc s1) s2.
Proof. revert acc. induction s1 as [|c s1 IH]; intros acc; cbn; [reflexivity | apply IH]. Qed.

Lemma digit_value_digit_char d : 0 <= d <= 9 -> digit_value (digit_char d) = d.
Proof.
  intros Hd. unfold digit_value, digit_char.
  rewrite nat_ascii_embedding by lia. lia.
Qed.

Lemma parse_decimal_digits fuel n :
  0 <= n < 2 ^ Z.of_nat fuel -> parse_from 0 (decimal_digits fuel n) = n.
Proof.
  revert n. induction fuel as [|fuel IH]; intros n Hn.
  - cbn in Hn. cbn. lia.
  - cbn [decimal_digits]. rewrite parse_from_app. cbn [parse_from].
    rewrite digit_value_digit_char by (pose proof (Z.mod_pos_bound n 10); lia).
    replace (Z.of_nat (S fuel)) with (Z.succ (Z.of_nat fuel)) in Hn by lia.
    rewrite Z.pow_succ_r in Hn by lia.
    destruct (Z.ltb_spec n 10) as [Hlt|Hge].
    + cbn [parse_from]. rewrite Z.mod_small by lia. lia.
    + rewrite IH.
      * pose proof (Z.div_mod n 10). lia.
      * split; [apply Z.div_pos; lia | apply Z.div_lt_upper_bound; lia].
Qed.

Lemma parse_decimal_decimal n : 0 <= n -> parse_decimal (decimal n) = n.
Proof.
  intros Hn. unfold parse_decimal, decimal.
  destruct (Z.eq_dec n 0) as [->|Hne]; [reflexivity|].
  apply parse_decimal_digits. split; [assumption|].
  pose proof (Z.log2_spec n ltac:(lia)) as [_ Hlog].
  pose proof (Z.log2_nonneg n).
  replace (Z.of_nat (S (Z.to_nat (Z.log2 n)))) with (Z.succ (Z.log2 n)) by lia.
  assumption.
Qed.

Lemma parse_from_zeros k acc : acc = 0 -> parse_from acc (replicate_char k "0") = 0.
Proof. intros ->. induction k as [|k IH]; cbn; [reflexivity | exact IH]. Qed.

(** A zero-padded numeral reads back as the number it was made from. *)
Lemma parse_padded n w : 0 <= n -> parse_decimal (ToZeroPaddedDecimalString n w) = n.
Proof.
  intros Hn. unfold parse_decimal, ToZeroPaddedDecimalString, padStart.
  rewrite parse_from_app, parse_from_zeros by reflexivity.
  now apply parse_decimal_decimal.
Qed.

Lemma padded_inj n1 n2 w :
  0 <= n1 -> 0 <= n2 ->
  ToZeroPaddedDecimalString n1 w = ToZeroPaddedDecimalString n2 w -> n1 = n2.
Proof.
  intros H1 H2 E. rewrite <- (parse_padded n1 w H1), <- (parse_padded n2 w H2).
  now rewrite E.
Qed.

(** Two concatenations with heads of the same length are equal part by
    part. *)
Lemma app_inj_length (a1 b1 a2 b2 : string) :
  String.length a1 = String.length a2 ->
  a1 +:+ b1 = a2 +:+ b2 -> a1 = a2 /\ b1 = b2.
Proof.
  revert a2. induction a1 as [|c a1 IH]; intros [|d a2] Hlen E; cbn in *;
    try discriminate; [now split|].
  injection E as -> E. destruct (IH a2 ltac:(lia) E) as [-> ->]. now split.
Qed.

(** The day within the year is the start of the month plus the day of the
    month. *)
Lemma DayWithinYear_from_month t :
  ECMADate.DayWithinYear t
  = DayFromMonth (ECMADate.MonthFromTime t) (ECMADate.InLeapYear t)
    + ECMADate.DateFromTime t - 1.
Proof.
  pose proof (DayWithinYear_range t) as Hd.
  pose proof (InLeapYear_cases t) as Hl.
  unfold ECMADate.DateFromTime, ECMADate.MonthFromTime.
  repeat match goal with
         | |- context [if ?a <? ?b then _ else _] => destruct (Z.ltb_spec a b)
         end; cbn [DayFromMonth]; lia.
Qed.

Lemma TimeWithinDay_from_fields t :
  ECMADate.TimeWithinDay t
  = MakeTime (ECMADate.HourFromTime t) (ECMADate.MinFromTime t)
      (ECMADate.SecFromTime t) (ECMADate.msFromTime t).
Proof.
  unfold ECMADate.TimeWithinDay, MakeTime, ECMADate.HourFromTime, ECMADate.MinFromTime,
    ECMADate.SecFromTime, ECMADate.msFromTime, ECMADate.msPerDay, ECMADate.msPerHour,
    ECMADate.msPerMinute, ECMADate.msPerSecond.
  Z.div_mod_to_equations. lia.
Qed.

(** MakeDate, MakeDay and MakeTime undo the decomposition of a time value
    into civil components. *)
Lemma recompose_id t : recompose t = t.
Proof.
  unfold recompose, MakeDate, MakeDay.
  rewrite <- TimeWithinDay_from_fields.
  fold (ECMADate.InLeapYear t).
  pose proof (DayWithinYear_from_month t) as Hd.
  unfold ECMADate.DayWithinYear in Hd.
  replace (ECMADate.DayFromYear (ECMADate.YearFromTime t)
           + DayFromMonth (ECMADate.MonthFromTime t) (ECMADate.InLeapYear t)
           + ECMADate.DateFromTime t - 1) with (ECMADate.Day t) by lia.
  unfold ECMADate.Day, ECMADate.TimeWithinDay, ECMADate.msPerDay.
  pose proof (Z.div_mod t 86400000). lia.
Qed.

Lemma components_determine_time t1 t2 :
  ECMADate.YearFromTime t1 = ECMADate.YearFromTime t2 ->
  ECMADate.MonthFromTime t1 = ECMADate.MonthFromTime t2 ->
  ECMADate.DateFromTime t1 = ECMADate.DateFromTime t2 ->
  ECMADate.HourFromTime t1 = ECMADate.HourFromTime t2 ->
  ECMADate.MinFromTime t1 = ECMADate.MinFromTime t2 ->
  ECMADate.SecFromTime t1 = ECMADate.SecFromTime t2 ->
  ECMADate.msFromTime t1 = ECMADate.msFromTime t2 ->
  t1 = t2.
Proof.
  intros Hy Hm Hd Hh Hmi Hs Hms.
  rewrite <- (recompose_id t1), <- (recompose_id t2). unfold recompose.
  now rewrite Hy, Hm, Hd, Hh, Hmi, Hs, Hms.
Qed.

(** The fields after the year, read back one by one. *)
Lemma fields_after_year_inj t1 t2 :
  Spec.fields_after_year t1 = Spec.fields_after_year t2 ->
  ECMADate.MonthFromTime t1 = ECMADate.MonthFromTime t2
  /\ ECMADate.DateFromTime t1 = ECMADate.DateFromTime t2
  /\ ECMADate.HourFromTime t1 = ECMADate.HourFromTime t2
  /\ ECMADate.MinFromTime t1 = ECMADate.MinFromTime t2
  /\ ECMADate.SecFromTime t1 = ECMADate.SecFromTime t2
  /\ ECMADate.msFromTime t1 = ECMADate.msFromTime t2.
Proof.
  pose proof (MonthFromTime_range t1). pose proof (MonthFromTime_range t2).
  pose proof (DateFromTime_range t1). pose proof (DateFromTime_range t2).
  pose proof (HourFromTime_range t1). pose proof (HourFromTime_range t2).
  pose proof (MinFromTime_range t1). pose proof (MinFromTime_range t2).
  pose proof (SecFromTime_range t1). pose proof (SecFromTime_range t2).
  pose proof (msFromTime_range t1). pose proof (msFromTime_range t2).
  assert (Hw : forall n, 0 <= n <= 99 ->
                 String.length (ToZeroPaddedDecimalString n 2) = 2%nat).
  { intros n Hn. apply (padded_width n 2); [cbn; lia | lia]. }
  unfold Spec.fields_after_year. intros E.
  repeat match type of E with
         | String ?c _ = String ?c _ => injection E as E
         | (String _ _) +:+ _ = _ => cbn [String.append] in E
         | ToZeroPaddedDecimalString ?a 2 +:+ _ = ToZeroPaddedDecimalString ?b 2 +:+ _ =>
             let H := fresh "Hfield" in
             apply app_inj_length in E as [H E];
             [ apply padded_inj in H; [|lia|lia]
             | rewrite !Hw by lia; reflexivity ]
         end.
  apply padded_inj in E; [|lia|lia].
  repeat split; lia.
Qed.

(** The civil timestamp of an instant in a four-digit year determines the
    instant. *)
Lemma civil_timestamp_inj t1 t2 :
  0 <= ECMADate.YearFromTime t1 <= 9999 ->
  0 <= ECMADate.YearFromTime t2 <= 9999 ->
  Spec.civil_timestamp t1 = Spec.civil_timestamp t2 -> t1 = t2.
Proof.
  intros H1 H2 E. unfold Spec.civil_timestamp in E.
  apply app_inj_length in E as [Hy E].
  - apply padded_inj in Hy; [|lia|lia].
    destruct (fields_after_year_inj t1 t2 E) as (Hm & Hd & Hh & Hmi & Hs & Hms).
    now apply components_determine_time.
  - destruct (padded_width (ECMADate.YearFromTime t1) 4 ltac:(cbn; lia) ltac:(lia)) as [-> _].
    destruct (padded_width (ECMADate.YearFromTime t2) 4 ltac:(cbn; lia) ltac:(lia)) as [-> _].
    reflexivity.
Qed.

End ReadbackFacts.

(** ** Arguments, values and responses *)

Section Arguments.
Import JS Text TextFacts RenderFacts ServerFacts.
Import TimeServer.

#[local] Arguments String.append !_ _ / : simpl nomatch.

Abbreviation call' := CallToolRequest.getCurrentTime.
Abbreviation text_item' s := {| TextContent.type := "text"; TextContent.text := s |}.
Abbreviation success s :=
  (Normal {| CallToolResult.content := [text_item' s]; CallToolResult.isError := None |}).

(** The values [!timezone] lets through to the UTC branch. *)
Lemma ToBoolean_false v :
  ToBoolean v = false
  <-> v = Undefined \/ v = Null \/ v = Boolean false
      \/ (exists text, v = Number false text) \/ v = Str "".
Proof.
  split.
  - destruct v as [ | | [|] | [|] text | s | elems | props]; cbn; try discriminate; eauto 6.
    destruct s; [auto 6 | discriminate].
  - intros [-> | [-> | [-> | [[text ->] | ->]]]]; reflexivity.
Qed.

(** X1: a call without arguments, with arguments that have no [timezone]
    property, or whose [timezone] is [null], [false], a zero number or
    the empty string, is answered like a call without timezone: the
    success response holding [toISOString] of the instant.  No such value
    is reported as an invalid timezone. *)
Theorem missing_or_falsy_timezone_is_utc
    (db : Intl.TimeZoneDatabase) (now : Z) (args : option (gmap string Value)) :
  (args = None
   \/ exists props,
       args = Some props
       /\ (props !! "timezone" = None
           \/ exists v,
               props !! "timezone" = Some v
               /\ (v = Undefined \/ v = Null \/ v = Boolean false
                   \/ (exists text, v = Number false text) \/ v = Str ""))) ->
  CallToolHandler db now (call' args) = success (ECMADate.toISOString now).
Proof.
  intros H. apply CallToolHandler_success, getCurrentTime_falsy.
  destruct H as [-> | (props & -> & [Hnone | (v & Hv & Hfalsy)])]; cbn [optional_get].
  - reflexivity.
  - now rewrite Hnone.
  - rewrite Hv. cbn [default]. now apply ToBoolean_false.
Qed.

Lemma missing_or_falsy_timezone_is_utc_witness :
  CallToolHandler Sample.tzdb Sample.readme_instant
    (call' (Some {[ "timezone" := Null; "verbose" := Boolean true ]}))
  = success "2025-10-22T21:09:31.654Z".
Proof.
  rewrite (missing_or_falsy_timezone_is_utc Sample.tzdb Sample.readme_instant
             (Some {[ "timezone" := Null; "verbose" := Boolean true ]})).
  - vm_compute. reflexivity.
  - right. eexists. split; [reflexivity|]. right. exists Null.
    split; [vm_compute; reflexivity | auto].
Defined.

(** A call of the tool always returns from the handler. *)
Lemma getCurrentTime_call_responds
    (db : Intl.TimeZoneDatabase) (now : Z) (args : option (gmap string Value)) :
  exists r, CallToolHandler db now (call' args) = Normal r.
Proof.
  destruct (getCurrentTime db now (optional_get args "timezone"))
    as [s|[name message|v]] eqn:H.
  - eexists. apply CallToolHandler_success. exact H.
  - eexists. apply CallToolHandler_failure with (name := name). exact H.
  - now apply CallToolHandler_never_unknown_error in H.
Qed.

(** X2: a call of [getCurrentTime] always gets a response, and the
    response is an error response exactly when the [timezone] argument is
    truthy and has no string conversion that the host recognizes as a
    zone. *)
Theorem error_response_iff
    (db : Intl.TimeZoneDatabase) (now : Z) (args : option (gmap string Value)) :
  exists r,
    CallToolHandler db now (call' args) = Normal r
    /\ (CallToolResult.failed r = true
        <-> ToBoolean (optional_get args "timezone") = true
            /\ forall shown,
                ToString (optional_get args "timezone") = Normal shown ->
                Intl.lookup db shown = None).
Proof.
  pose proof (getCurrentTime_fails_iff db now (optional_get args "timezone")) as Hiff.
  destruct (getCurrentTime db now (optional_get args "timezone"))
    as [s|[name message|v]] eqn:H.
  - eexists. split; [apply CallToolHandler_success; exact H|].
    cbn. split; [discriminate|].
    intros Hfail. apply Hiff in Hfail as [e He]. discriminate.
  - eexists. split; [apply CallToolHandler_failure with (name := name); exact H|].
    cbn. split; [intros _; apply Hiff; eauto | reflexivity].
  - now apply CallToolHandler_never_unknown_error in H.
Qed.

(** X3: a truthy [timezone] that is not a string is used through its
    string conversion: when the conversion is a non-empty string [s] the
    result is that of the string [s] itself, so a value such as
    [["UTC"]] names a zone.  When the conversion is the empty string (as
    for the empty array) the call is an invalid-timezone failure, unlike
    the empty string itself. *)
Theorem truthy_value_acts_as_its_string
    (db : Intl.TimeZoneDatabase) (now : Z) (timezone : Value) (s : string) :
  ToBoolean timezone = true ->
  ToString timezone = Normal s ->
  (s <> "" -> getCurrentTime db now timezone = getCurrentTime db now (Str s))
  /\ (s = "" ->
      getCurrentTime db now timezone = Throw (Error (invalid_timezone_message ""))
      /\ getCurrentTime db now (Str s) = Normal (ECMADate.toISOString now)).
Proof.
  intros Ht Hs. split.
  - intros Hne.
    assert (Hts : ToBoolean (Str s) = true) by (destruct s; [contradiction | reflexivity]).
    destruct (Intl.lookup db s) as [zone|] eqn:Hl.
    + rewrite (getCurrentTime_known_zone db now timezone s zone Ht Hs Hl).
      now rewrite (getCurrentTime_known_zone db now (Str s) s zone Hts eq_refl Hl).
    + rewrite (getCurrentTime_unknown_zone db now timezone s Ht Hs Hl).
      now rewrite (getCurrentTime_unknown_zone db now (Str s) s Hts eq_refl Hl).
  - intros ->. split.
    + apply getCurrentTime_unknown_zone; [assumption | assumption | apply Intl.lookup_empty].
    + now apply getCurrentTime_falsy.
Qed.

Lemma truthy_value_acts_as_its_string_witness :
  getCurrentTime Sample.tzdb Sample.readme_instant (Array [Str "Asia/Kolkata"])
  = getCurrentTime Sample.tzdb Sample.readme_instant (Str "Asia/Kolkata")
  /\ getCurrentTime Sample.tzdb Sample.readme_instant (Array [])
     = Throw (Error (invalid_timezone_message "")).
Proof.
  split.
  - apply (truthy_value_acts_as_its_string Sample.tzdb Sample.readme_instant
             (Array [Str "Asia/Kolkata"]) "Asia/Kolkata"); [reflexivity | reflexivity |].
    discriminate.
  - apply (truthy_value_acts_as_its_string Sample.tzdb Sample.readme_instant
             (Array []) ""); reflexivity.
Defined.

(** X4: the tools the list handler advertises are exactly the tools the
    call handler accepts: a call gets a response if its tool name is the
    name of a listed descriptor, and the unknown-tool fault otherwise. *)
Theorem listed_tools_are_the_callable_tools
    (db : Intl.TimeZoneDatabase) (now : Z) (request : CallToolRequest.t) :
  exists listed,
    ListToolsHandler = Normal listed
    /\ ((exists r, CallToolHandler db now request = Normal r)
        <-> In (CallToolRequest.name request)
              (map Tool.name (ListToolsResult.tools listed)))
    /\ (~ In (CallToolRequest.name request) (map Tool.name (ListToolsResult.tools listed))
        -> CallToolHandler db now request
           = Throw (Error ("Unknown tool: " +:+ CallToolRequest.name request))).
Proof.
  eexists. split; [reflexivity|]. cbn [ListToolsResult.tools map In].
  change (Tool.name GET_CURRENT_TIME_TOOL) with "getCurrentTime".
  destruct request as [name args]. cbn [CallToolRequest.name].
  destruct (String.eqb_spec name "getCurrentTime") as [->|Hne].
  - split; [|intros H; exfalso; apply H; now left].
    split; [now left|]. intros _.
    apply getCurrentTime_call_responds.
  - assert (Hthrow : CallToolHandler db now
                       {| CallToolRequest.name := name; CallToolRequest.arguments := args |}
                     = Throw (Error ("Unknown tool: " +:+ name))).
    { unfold CallToolHandler. cbn [CallToolRequest.name].
      destruct (String.eqb_spec name "getCurrentTime"); [contradiction | reflexivity]. }
    split; [|intros _; exact Hthrow].
    split.
    + intros [r Hr]. rewrite Hthrow in Hr. discriminate.
    + intros [E | []]. now symmetry in E.
Qed.

End Arguments.

(** ** Timestamps and instants *)

Section Timestamps.
Import JS Text TextFacts RenderFacts ServerFacts ReadbackFacts.
Import TimeServer.

#[local] Arguments String.append !_ _ / : simpl nomatch.

(** The zoned branch in a four-digit civil year. *)
Lemma getCurrentTime_zoned_civil
    (db : Intl.TimeZoneDatabase) (now : Z) (tz : string) (zone : Intl.TimeZone) :
  Intl.lookup db tz = Some zone ->
  (1000 <= ECMADate.YearFromTime (Intl.localTime zone now) <= 9999)%Z ->
  getCurrentTime db now (Str tz)
  = Normal (Spec.civil_timestamp (Intl.localTime zone now)).
Proof.
  intros Hl Hy.
  assert (Ht : ToBoolean (Str tz) = true).
  { cbn. destruct tz; [|reflexivity]. rewrite Intl.lookup_empty in Hl. discriminate. }
  rewrite (getCurrentTime_zoned_fields db now (Str tz) tz zone Ht eq_refl Hl).
  cbv zeta. unfold Spec.civil_timestamp.
  now rewrite <- (render_numeric_year _ Hy).
Qed.

(** X5: the zoned result shows the wall-clock time of the zone and
    nothing else of the zone: the zone name the source asks the formatter
    for is dropped by the template.  Two calls whose instants fall on the
    same wall-clock time in their zones return the same string (as around
    the end of daylight saving); in four-digit years, the same string is
    returned only then. *)
Theorem zoned_result_is_wall_clock_time_only
    (db : Intl.TimeZoneDatabase) (now1 now2 : Z) (tz1 tz2 : string)
    (zone1 zone2 : Intl.TimeZone) :
  Intl.lookup db tz1 = Some zone1 ->
  Intl.lookup db tz2 = Some zone2 ->
  (Intl.localTime zone1 now1 = Intl.localTime zone2 now2 ->
   getCurrentTime db now1 (Str tz1) = getCurrentTime db now2 (Str tz2))
  /\ ((1000 <= ECMADate.YearFromTime (Intl.localTime zone1 now1) <= 9999)%Z ->
      (1000 <= ECMADate.YearFromTime (Intl.localTime zone2 now2) <= 9999)%Z ->
      getCurrentTime db now1 (Str tz1) = getCurrentTime db now2 (Str tz2) ->
      Intl.localTime zone1 now1 = Intl.localTime zone2 now2).
Proof.
  intros Hl1 Hl2.
  assert (Ht : forall tz zone, Intl.lookup db tz = Some zone -> ToBoolean (Str tz) = true).
  { intros tz zone Hl. cbn. destruct tz; [|reflexivity].
    rewrite Intl.lookup_empty in Hl. discriminate. }
  split.
  - intros E.
    rewrite (getCurrentTime_zoned_fields db now1 (Str tz1) tz1 zone1 (Ht _ _ Hl1) eq_refl Hl1).
    rewrite (getCurrentTime_zoned_fields db now2 (Str tz2) tz2 zone2 (Ht _ _ Hl2) eq_refl Hl2).
    cbv zeta. now rewrite E.
  - intros Hy1 Hy2 E.
    rewrite (getCurrentTime_zoned_civil db now1 tz1 zone1 Hl1 Hy1) in E.
    rewrite (getCurrentTime_zoned_civil db now2 tz2 zone2 Hl2 Hy2) in E.
    injection E as E. apply civil_timestamp_inj; [lia | lia | exact E].
Qed.

Lemma zoned_result_is_wall_clock_time_only_witness :
  getCurrentTime Sample.tzdb 1762061400000 (Str "America/New_York")
  = getCurrentTime Sample.tzdb 1762065000000 (Str "America/New_York").
Proof.
  destruct (Sample.zones "America/New_York") as [zone|] eqn:Hz; [|discriminate Hz].
  destruct (zoned_result_is_wall_clock_time_only Sample.tzdb 1762061400000 1762065000000
              "America/New_York" "America/New_York" zone zone Hz Hz) as [Hsame _].
  apply Hsame. injection Hz as <-. vm_compute. reflexivity.
Defined.

(** X6: the two branches agree: in a four-digit civil year, the zoned
    result for an instant is the UTC result for the instant shifted by the
    zone's offset, without the final [Z].  For a zone at offset zero the
    explicit identifier gives the no-argument result without its [Z]. *)
Theorem zoned_result_is_utc_result_of_shifted_instant
    (db : Intl.TimeZoneDatabase) (now : Z) (tz : string) (zone : Intl.TimeZone) :
  Intl.lookup db tz = Some zone ->
  (1000 <= ECMADate.YearFromTime (Intl.localTime zone now) <= 9999)%Z ->
  exists s,
    getCurrentTime db now (Str tz) = Normal s
    /\ getCurrentTime db (now + Intl.offset zone now) Undefined = Normal (s +:+ "Z")
    /\ (Intl.offset zone now = 0%Z ->
        getCurrentTime db now Undefined = Normal (s +:+ "Z")).
Proof.
  intros Hl Hy. exists (Spec.civil_timestamp (Intl.localTime zone now)).
  split; [now apply getCurrentTime_zoned_civil|].
  assert (Hutc : getCurrentTime db (now + Intl.offset zone now) Undefined
                 = Normal (Spec.civil_timestamp (Intl.localTime zone now) +:+ "Z")).
  { rewrite getCurrentTime_falsy by reflexivity.
    fold (Intl.localTime zone now).
    rewrite toISOString_utc_timestamp by lia. reflexivity. }
  split; [exact Hutc|].
  intros H0. rewrite H0, Z.add_0_r in Hutc. unfold Intl.localTime in *.
  now rewrite H0, Z.add_0_r in *.
Qed.

Lemma zoned_result_is_utc_result_of_shifted_instant_witness :
  getCurrentTime Sample.tzdb Sample.readme_instant (Str "Asia/Kolkata")
  = Normal "2025-10-23T02:39:31.654"
  /\ getCurrentTime Sample.tzdb (Sample.readme_instant + 19800000) Undefined
     = Normal "2025-10-23T02:39:31.654Z".
Proof.
  destruct (Sample.zones "Asia/Kolkata") as [zone|] eqn:Hz; [|discriminate Hz].
  destruct (zoned_result_is_utc_result_of_shifted_instant Sample.tzdb Sample.readme_instant
              "Asia/Kolkata" zone Hz) as (s & Hs & Hutc & _).
  - injection Hz as <-. vm_compute. split; discriminate.
  - injection Hz as <-.
    assert (Es : Normal s = Normal "2025-10-23T02:39:31.654")
      by (rewrite <- Hs; vm_compute; reflexivity).
    injection Es as ->. split; [exact Hs | exact Hutc].
Defined.

(** X7: the UTC result identifies the instant to the millisecond: in the
    years 0000 to 9999, two calls without timezone that return the same
    string were made at the same clock reading. *)
Theorem utc_result_determines_instant
    (db : Intl.TimeZoneDatabase) (now1 now2 : Z) :
  (0 <= ECMADate.YearFromTime now1 <= 9999)%Z ->
  (0 <= ECMADate.YearFromTime now2 <= 9999)%Z ->
  getCurrentTime db now1 Undefined = getCurrentTime db now2 Undefined ->
  now1 = now2.
Proof.
  intros H1 H2 E.
  rewrite !getCurrentTime_falsy in E by reflexivity.
  rewrite !toISOString_utc_timestamp in E by assumption.
  injection E as E. unfold Spec.utc_timestamp in E.
  apply app_inj_length in E as [E _].
  - now apply civil_timestamp_inj.
  - rewrite (matches_length _ _ (civil_timestamp_matches now1 H1)).
    now rewrite (matches_length _ _ (civil_timestamp_matches now2 H2)).
Qed.

Lemma utc_result_determines_instant_witness :
  (0 <= ECMADate.YearFromTime 1761167371654 <= 9999)%Z
  /\ getCurrentTime Sample.tzdb 1761167371654 Undefined
     = getCurrentTime Sample.tzdb Sample.readme_instant Undefined
  /\ 1761167371654%Z = Sample.readme_instant.
Proof.
  assert (Hy : (0 <= ECMADate.YearFromTime 1761167371654 <= 9999)%Z)
    by (vm_compute; split; discriminate).
  split; [exact Hy|]. split; [reflexivity|].
  apply (utc_result_determines_instant Sample.tzdb 1761167371654 Sample.readme_instant);
    [exact Hy | exact Hy | reflexivity].
Defined.

End Timestamps.

(** ** The parts map, the response text, and the process *)

Section Remaining.
Import JS Text TextFacts RenderFacts ServerFacts.
Import TimeServer.

#[local] Arguments String.append !_ _ / : simpl nomatch.




Lemma append_nonempty_r (s1 s2 : string) : s2 <> "" -> s1 +:+ s2 <> "".
Proof. intros H. destruct s1; cbn; [assumption | discriminate]. Qed.

Lemma decimal_nonempty n : decimal n <> "".
Proof. unfold decimal. cbn [decimal_digits]. apply append_nonempty_r. discriminate. Qed.

(** A string that begins with a digit does not begin with [Error: ]. *)
Lemma digits_not_error (s rest : string) :
  s <> "" -> all_digits s = true -> starts_with "Error: " (s +:+ rest) = false.
Proof.
  intros Hne Hd. destruct s as [|c s]; [contradiction|].
  cbn in Hd. apply andb_prop in Hd as [Hc _].
  unfold starts_with. cbn [String.append String.prefix].
  destruct (ascii_dec "E" c) as [<-|]; [discriminate Hc | reflexivity].
Qed.

Lemma toISOString_not_error t : starts_with "Error: " (ECMADate.toISOString t) = false.
Proof.
  rewrite toISOString_fields. unfold ECMADate.year_string.
  destruct ((0 <=? ECMADate.YearFromTime t)%Z && (ECMADate.YearFromTime t <=? 9999)%Z) eqn:Hy.
  - apply andb_prop in Hy as [H0 _]. apply Z.leb_le in H0.
    apply digits_not_error.
    + unfold ToZeroPaddedDecimalString, padStart.
      apply append_nonempty_r, decimal_nonempty.
    + unfold ToZeroPaddedDecimalString, padStart.
      now rewrite all_digits_app, all_digits_replicate_zero, all_digits_decimal.
  - destruct (ECMADate.YearFromTime t <? 0)%Z; reflexivity.
Qed.

(** X9: a caller can tell an error response from its text alone: the
    text of the response begins with [Error: ] exactly when [isError] is
    set, since the text of a success begins with a digit or a sign. *)
Theorem error_flag_iff_error_text
    (db : Intl.TimeZoneDatabase) (now : Z) (args : option (gmap string Value)) :
  exists text flag,
    CallToolHandler db now (CallToolRequest.getCurrentTime args)
    = Normal {| CallToolResult.content :=
                  [ {| TextContent.type := "text"; TextContent.text := text |} ];
                CallToolResult.isError := flag |}
    /\ (flag = Some true <-> starts_with "Error: " text = true).
Proof.
  set (timezone := optional_get args "timezone").
  destruct (getCurrentTime db now timezone) as [s|[name message|v]] eqn:H.
  - exists s, None. split; [apply CallToolHandler_success; exact H|].
    assert (Hs : starts_with "Error: " s = false).
    { destruct (ToBoolean timezone) eqn:Ht.
      - destruct (ToString timezone) as [shown|e] eqn:Hshown.
        + destruct (Intl.lookup db shown) as [zone|] eqn:Hl.
          * rewrite (getCurrentTime_zoned_fields db now timezone shown zone Ht Hshown Hl) in H.
            injection H as <-. cbv zeta. apply digits_not_error.
            -- apply decimal_nonempty.
            -- apply all_digits_decimal. unfold Intl.yearOfEra.
               destruct (Z.leb_spec (ECMADate.YearFromTime (Intl.localTime zone now)) 0); lia.
          * rewrite (getCurrentTime_unknown_zone db now timezone shown Ht Hshown Hl) in H.
            discriminate.
        + rewrite (getCurrentTime_unprintable db now timezone e Ht Hshown) in H. discriminate.
      - rewrite (getCurrentTime_falsy db now timezone Ht) in H.
        injection H as <-. apply toISOString_not_error. }
    rewrite Hs. split; discriminate.
  - exists ("Error: " +:+ message), (Some true).
    split; [apply CallToolHandler_failure with (name := name); exact H|].
    split; [intros _; apply prefix_app | reflexivity].
  - now apply CallToolHandler_never_unknown_error in H.
Qed.

(** X10: what the process does at start.  When the transport starts, both
    handlers are in place on the connected server, which answers every
    request as the handlers of the source do, and the only line logged is
    the start message; nothing exits.  When the transport fails to start,
    no server is connected, the failure is logged with its cause after
    [Fatal error in main():], the start message is not logged, and the
    process exits with status 1.  Every line goes to standard error. *)
Theorem startup_outcome (db : Intl.TimeZoneDatabase) (transport_start : Completion unit) :
  match transport_start with
  | Normal _ =>
      Process.exitCode (Process.run db transport_start) = None
      /\ Process.stderr (Process.run db transport_start)
         = [("Time MCP Server running on stdio", None)]
      /\ exists server,
          Process.connected (Process.run db transport_start) = Some server
          /\ forall now r, Process.handle server now r = dispatch db now r
  | Throw e =>
      Process.exitCode (Process.run db transport_start) = Some 1%Z
      /\ Process.stderr (Process.run db transport_start)
         = [("Fatal error in main():", Some e)]
      /\ Process.connected (Process.run db transport_start) = None
  end.
Proof.
  destruct transport_start as [u|e]; cbn.
  - split; [reflexivity|]. split; [reflexivity|].
    eexists. split; [reflexivity|]. intros now [|request]; reflexivity.
  - repeat split.
Qed.

End Remaining.

